(** * monTools: the alert decision of the network monitor orchestrator

    A shallow embedding of [analyze_results] from [NMO.py] (lines 77-212),
    the routine that loads the check log, isolates the rows of the latest
    timestamp and decides whether an alert e-mail is due.

    The embedding starts at the frame returned by [pd.read_csv] (line 112):
    a frame is a list of rows and a column is the list of one field of the
    rows.  The pandas calls are modelled by their outcome on each cell
    (pandas 2, where a text column has dtype object); everything the source itself spells out (the truth table of
    the [Success] column, the masks, the branches, the [try]/[except]
    layers and the six [return] statements) is translated as written.
    The frame is assumed to carry the columns the routine indexes; what the
    routine prints is not modelled, the frames it prints from are. *)

From Stdlib Require Import List ZArith QArith Bool Ascii String Lia Permutation.
Import ListNotations.

Local Open Scope string_scope.
Local Open Scope Z_scope.

(** ** Cells of the frame as [pd.read_csv] delivers them *)

(** A pandas timestamp: nanoseconds since the epoch. *)
Definition datetime := Z.

(** A cell of the [Timestamp] column, seen through [pd.to_datetime] called
    with its default [errors='raise'] (line 119): a text that converts, an
    empty cell (NaN, which converts to NaT), or a text on which the
    conversion raises. *)
Inductive TimestampCell :=
| TsParsed (t : datetime)
| TsMissing
| TsInvalid (text : string).

(** A cell of the [TargetPort] column, seen through [pd.to_numeric] called
    with [errors='coerce'] (line 121): a number (the value of the float it
    yields), an empty cell, or a text that is no number. *)
Inductive PortCell :=
| PortNumber (q : Q)
| PortMissing
| PortText (text : string).

(** A cell of the [Success] column: [read_csv] yields Python booleans for
    the literals it recognises, strings for other text, NaN for an empty
    cell and numbers for numerals of an all-numeric column. *)
Inductive SuccessCell :=
| SBool (b : bool)
| SStr (s : string)
| SNaN
| SNum (z : Z).

(** A text column ([CheckType], [CheckName], [TargetHost], [Details]):
    [None] is NaN. *)
Definition TextCell := option string.

Module Raw.

Record Row := mk {
  Timestamp : TimestampCell;
  CheckType : TextCell;
  CheckName : TextCell;
  TargetHost : TextCell;
  TargetPort : PortCell;
  Success : SuccessCell;
  Details : TextCell }.

End Raw.

(** The frame once lines 118-129 have converted its columns: [Timestamp]
    is datetime64 ([None] is NaT), [TargetPort] is float64 ([None] is NaN)
    and [Success] is boolean without missing values. *)
Record Row := mkRow {
  Timestamp : option datetime;
  CheckType : TextCell;
  CheckName : TextCell;
  TargetHost : TextCell;
  TargetPort : option Q;
  Success : bool;
  Details : TextCell }.

Definition DataFrame := list Raw.Row.

(** ** Exceptions *)

Inductive Raised :=
| DateParseError (text : string)
| TypeError (msg : string)
| ValueError (msg : string).

Definition Exc (A : Type) : Type := (Raised + A)%type.

Definition ret {A} (a : A) : Exc A := inr a.
Definition raise {A} (e : Raised) : Exc A := inl e.
Definition bind {A B} (m : Exc A) (k : A -> Exc B) : Exc B :=
  match m with
  | inl e => inl e
  | inr a => k a
  end.

Notation "x <- m ;; k" := (bind m (fun x => k))
  (at level 61, m at next level, right associativity).

Fixpoint mapM {A B} (f : A -> Exc B) (l : list A) : Exc (list B) :=
  match l with
  | [] => ret []
  | a :: l' => b <- f a ;; bs <- mapM f l' ;; ret (b :: bs)
  end.

(** ** [strftime('%Y-%m-%d %H:%M:%S')] *)

Definition digit (n : Z) : ascii := ascii_of_N (48 + Z.to_N (n mod 10)).

Definition pad2 (n : Z) : string :=
  String (digit (n / 10)) (String (digit n) EmptyString).

Definition pad4 (n : Z) : string :=
  String (digit (n / 1000)) (String (digit (n / 100)) (pad2 n)).

(** Proleptic Gregorian date of a day count since 1970-01-01. *)
Definition civil_from_days (days : Z) : Z * Z * Z :=
  let z := days + 719468 in
  let era := z / 146097 in
  let doe := z mod 146097 in
  let yoe := (doe - doe / 1460 + doe / 36524 - doe / 146096) / 365 in
  let doy := doe - (365 * yoe + yoe / 4 - yoe / 100) in
  let mp := (5 * doy + 2) / 153 in
  let d := doy - (153 * mp + 2) / 5 + 1 in
  let m := if mp <? 10 then mp + 3 else mp - 9 in
  let y := yoe + era * 400 + (if m <=? 2 then 1 else 0) in
  (y, m, d).

Definition strftime (t : datetime) : string :=
  let secs := t / 1000000000 in
  let '(y, m, d) := civil_from_days (secs / 86400) in
  let sod := secs mod 86400 in
  (pad4 y ++ "-" ++ pad2 m ++ "-" ++ pad2 d ++ " " ++
   pad2 (sod / 3600) ++ ":" ++ pad2 (sod / 60 mod 60) ++ ":" ++
   pad2 (sod mod 60))%string.

(** ** Column conversions, lines 118-129 *)

(** Line 119, [pd.to_datetime(df['Timestamp'])]: one text that does not
    convert makes the call raise. *)
Definition to_datetime_cell (c : TimestampCell) : Exc (option datetime) :=
  match c with
  | TsParsed t => ret (Some t)
  | TsMissing => ret None
  | TsInvalid text => raise (DateParseError text)
  end.

Definition to_datetime (col : list TimestampCell) : Exc (list (option datetime)) :=
  mapM to_datetime_cell col.

(** Line 121, [pd.to_numeric(df['TargetPort'], errors='coerce')]. *)
Definition to_numeric_coerce (c : PortCell) : option Q :=
  match c with
  | PortNumber q => Some q
  | PortMissing => None
  | PortText _ => None
  end.

(** The dtype [read_csv] gives the [Success] column. *)
Inductive Dtype := dtype_bool | dtype_number | dtype_object.

Definition is_SBool (c : SuccessCell) : bool :=
  match c with SBool _ => true | _ => false end.

Definition is_numeric (c : SuccessCell) : bool :=
  match c with SNum _ | SNaN => true | _ => false end.

Definition dtype (col : list SuccessCell) : Dtype :=
  if forallb is_SBool col then dtype_bool
  else if forallb is_numeric col then dtype_number
  else dtype_object.

(** [.astype(str)] on a cell of an object column. *)
Fixpoint digits (fuel : nat) (n : Z) (acc : string) : string :=
  match fuel with
  | O => acc
  | S fuel' => if n =? 0 then acc
               else digits fuel' (n / 10) (String (digit n) acc)
  end.

Definition decimal (z : Z) : string :=
  match z with
  | Z0 => "0"
  | Zpos p => digits (Pos.size_nat p) z EmptyString
  | Zneg p => ("-" ++ digits (Pos.size_nat p) (Zpos p) EmptyString)%string
  end.

Definition astype_str (c : SuccessCell) : string :=
  match c with
  | SBool true => "True"
  | SBool false => "False"
  | SStr s => s
  | SNaN => "nan"
  | SNum z => decimal z
  end.

(** [.str.lower()]: the keys of the table below are ASCII, and no other
    character lowers to an ASCII letter of a key, so lowering the ASCII
    capitals decides the lookup. *)
Definition lower_ascii (c : ascii) : ascii :=
  let n := N_of_ascii c in
  if ((65 <=? n) && (n <=? 90))%N then ascii_of_N (n + 32) else c.

Fixpoint lower (s : string) : string :=
  match s with
  | EmptyString => EmptyString
  | String c s' => String (lower_ascii c) (lower s')
  end.

(** The table of line 127. *)
Definition truth_table : list (string * bool) :=
  [("true", true); ("false", false); ("yes", true); ("no", false)].

Fixpoint lookup (key : string) (table : list (string * bool)) : option bool :=
  match table with
  | [] => None
  | (k, v) :: table' => if String.eqb key k then Some v else lookup key table'
  end.

(** Line 127: [.astype(str).str.lower().map({...})]; a text that is no key
    maps to NaN. *)
Definition map_truth (c : SuccessCell) : option bool :=
  lookup (lower (astype_str c)) truth_table.

(** Lines 126-127: only a column of dtype object goes through the table;
    the result holds booleans and NaN. *)
Definition map_column (col : list SuccessCell) : list SuccessCell :=
  match dtype col with
  | dtype_object =>
      map (fun c => match map_truth c with
                    | Some b => SBool b
                    | None => SNaN
                    end) col
  | _ => col
  end.

(** Line 129, [.astype('boolean')]: booleans stay, NaN becomes NA, the
    numbers 0 and 1 become booleans, anything else is refused. *)
Definition astype_boolean_cell (c : SuccessCell) : Exc (option bool) :=
  match c with
  | SBool b => ret (Some b)
  | SNaN => ret None
  | SNum 0 => ret (Some false)
  | SNum 1 => ret (Some true)
  | SNum _ => raise (TypeError "Need to pass bool-like values")
  | SStr _ => raise (TypeError "Need to pass bool-like values")
  end.

Definition astype_boolean (col : list SuccessCell) : Exc (list (option bool)) :=
  mapM astype_boolean_cell col.

(** Line 129, [.fillna(False)]. *)
Definition fillna_False (col : list (option bool)) : list bool :=
  map (fun c => match c with Some b => b | None => false end) col.

(** Writing the converted columns back into the frame. *)
Fixpoint assign (df : DataFrame) (ts : list (option datetime))
    (port : list (option Q)) (succ : list bool) : list Row :=
  match df, ts, port, succ with
  | r :: df', t :: ts', p :: port', s :: succ' =>
      mkRow t (Raw.CheckType r) (Raw.CheckName r) (Raw.TargetHost r) p s
            (Raw.Details r)
        :: assign df' ts' port' succ'
  | _, _, _, _ => []
  end.

(** ** Masks and reductions, lines 131-192 *)

Definition isna {A} (c : option A) : bool :=
  match c with Some _ => false | None => true end.

(** [Series.max()], which skips NaT and is NaT on a column of NaT. *)
Fixpoint column_max (col : list (option datetime)) : option datetime :=
  match col with
  | [] => None
  | c :: col' =>
      match c, column_max col' with
      | Some t, Some m => Some (Z.max t m)
      | Some t, None => Some t
      | None, m => m
      end
  end.

(** [df['Timestamp'] == latest_timestamp]: NaT equals nothing. *)
Definition eq_datetime (c : option datetime) (t : datetime) : bool :=
  match c with Some x => x =? t | None => false end.

(** [column == 'text']: NaN equals nothing. *)
Definition eq_text (c : TextCell) (s : string) : bool :=
  match c with Some x => String.eqb x s | None => false end.

(** [column == 3389.0]: NaN equals nothing. *)
Definition eq_float (c : option Q) (q : Q) : bool :=
  match c with Some x => Qeq_bool x q | None => false end.

Definition isin (c : TextCell) (values : list string) : bool :=
  match c with Some x => existsb (String.eqb x) values | None => false end.

Definition empty {A} (l : list A) : bool :=
  match l with [] => true | _ => false end.

(** Lines 157-158. *)
Definition rdp_mask (r : Row) : bool :=
  eq_text (CheckType r) "Inbound Listen Check" && eq_float (TargetPort r) 3389.

(** Line 163. *)
Definition outbound_mask (r : Row) : bool :=
  isin (CheckType r) ["Outbound TCP"; "Outbound ICMP"].

(** Lines 173-174. *)
Definition critical_mask (r : Row) : bool :=
  rdp_mask r || outbound_mask r.

(** Line 148. *)
Definition failed (r : Row) : bool := Bool.eqb (Success r) false.

(** ** The routine *)

(** The [return] statements of [analyze_results] that a loaded frame can
    reach, by line. *)
Inductive ReturnSite :=
| Line115 | Line124 | Line134 | Line144 | Line202 | Line212.

(** What a call leaves behind: the returned pair, the [return] statement
    taken, and the frames the routine bound on its way ([None] for a
    name never assigned). *)
Record Result := mkResult {
  send_alert : bool;
  timestamp_str : string;
  returned_at : ReturnSite;
  df_converted : option (list Row);
  latest_timestamp : option datetime;
  latest_results : option (list Row);
  all_failures : option (list Row);
  critical_failures : option (list Row);
  non_critical_failures : option (list Row) }.

(** [return False, now_str] with no frame of interest bound. *)
Definition undetermined (now_str : string) (site : ReturnSite) : Result :=
  mkResult false now_str site None None None None None None.

(** Lines 146-202, on the rows of the latest timestamp. *)
Definition apply_failure_logic (df : list Row) (latest_timestamp : datetime)
    (latest_timestamp_str : string) (latest_results : list Row) : Result :=
  let all_failures := filter failed latest_results in
  if empty all_failures then
    mkResult false latest_timestamp_str Line202 (Some df)
      (Some latest_timestamp) (Some latest_results) (Some all_failures)
      None None
  else
    let is_rdp_failure := negb (empty (filter rdp_mask all_failures)) in
    let is_outbound_failure := negb (empty (filter outbound_mask all_failures)) in
    let send_alert := is_rdp_failure || is_outbound_failure in
    if send_alert then
      let critical_failures := filter critical_mask all_failures in
      mkResult send_alert latest_timestamp_str Line202 (Some df)
        (Some latest_timestamp) (Some latest_results) (Some all_failures)
        (Some critical_failures) None
    else
      let non_critical_failures :=
        filter (fun r => negb (critical_mask r)) all_failures in
      mkResult send_alert latest_timestamp_str Line202 (Some df)
        (Some latest_timestamp) (Some latest_results) (Some all_failures)
        None (Some non_critical_failures).

(** Lines 126-144, after the inner [try]: an exception raised here reaches
    the handlers of lines 204-212. *)
Definition after_conversion (now_str : string) (df : DataFrame)
    (Timestamp_col : list (option datetime)) (TargetPort_col : list (option Q))
    : Exc Result :=
  Success_col <- astype_boolean (map_column (map Raw.Success df)) ;;
  let df' := assign df Timestamp_col TargetPort_col (fillna_False Success_col) in
  if forallb isna (map Timestamp df') then
    ret (mkResult false now_str Line134 (Some df') None None None None None)
  else
    latest_timestamp <-
      match column_max (map Timestamp df') with
      | Some t => ret t
      | None => raise (ValueError "NaTType does not support strftime")
      end ;;
    let latest_timestamp_str := strftime latest_timestamp in
    let latest_results :=
      filter (fun r => eq_datetime (Timestamp r) latest_timestamp) df' in
    if empty latest_results then
      ret (mkResult false latest_timestamp_str Line144 (Some df')
             (Some latest_timestamp) (Some latest_results) None None None)
    else
      ret (apply_failure_logic df' latest_timestamp latest_timestamp_str
             latest_results).

(** The [try] block, lines 112-202.  [now_str] is the wall clock read at
    line 89.  The inner [try] of lines 118-124 handles what the two
    conversions raise. *)
Definition analyze_body (now_str : string) (df : DataFrame) : Exc Result :=
  if empty df then
    ret (undetermined now_str Line115)
  else
    match to_datetime (map Raw.Timestamp df) with
    | inl _ => ret (undetermined now_str Line124)
    | inr Timestamp_col =>
        let TargetPort_col := map to_numeric_coerce (map Raw.TargetPort df) in
        after_conversion now_str df Timestamp_col TargetPort_col
    end.

(** [analyze_results] from the loaded frame on: the [try] block under the
    handlers of lines 204-212, of which [except Exception] catches what the
    block raises. *)
Definition analyze_results (now_str : string) (df : DataFrame) : Result :=
  match analyze_body now_str df with
  | inr result => result
  | inl _ => undetermined now_str Line212
  end.

(** The failure lists a call reports; a list the call never built reports
    nothing. *)
Definition criticalFailures (r : Result) : list Row :=
  match critical_failures r with Some l => l | None => [] end.

Definition nonCriticalFailures (r : Result) : list Row :=
  match non_critical_failures r with Some l => l | None => [] end.

(** ** The converted frame, cell by cell *)

Definition timestamp_of (c : TimestampCell) : option datetime :=
  match c with TsParsed t => Some t | _ => None end.

(** The boolean lines 126-129 leave in a cell of a column of dtype [dt]. *)
Definition boolean_of (dt : Dtype) (c : SuccessCell) : bool :=
  match dt with
  | dtype_object => match map_truth c with Some b => b | None => false end
  | _ => match c with SBool b => b | SNum 1 => true | _ => false end
  end.

Definition convert_row (dt : Dtype) (raw : Raw.Row) : Row :=
  mkRow (timestamp_of (Raw.Timestamp raw)) (Raw.CheckType raw)
        (Raw.CheckName raw) (Raw.TargetHost raw)
        (to_numeric_coerce (Raw.TargetPort raw))
        (boolean_of dt (Raw.Success raw)) (Raw.Details raw).

Definition convert (df : DataFrame) : list Row :=
  map (convert_row (dtype (map Raw.Success df))) df.

(** The cells on which [pd.to_datetime] does not raise. *)
Definition datetime_like (c : TimestampCell) : bool :=
  match c with TsInvalid _ => false | _ => true end.

(** The cells [.astype('boolean')] accepts. *)
Definition bool_like (c : SuccessCell) : bool :=
  match c with
  | SBool _ | SNaN | SNum 0 | SNum 1 => true
  | _ => false
  end.

(** The nullable boolean [.astype('boolean')] makes of a cell it accepts. *)
Definition nullable (c : SuccessCell) : option bool :=
  match c with
  | SBool b => Some b
  | SNum 1 => Some true
  | SNum 0 => Some false
  | _ => None
  end.

(** The frames whose columns lines 118-129 convert without raising. *)
Definition converts (df : DataFrame) : bool :=
  forallb datetime_like (map Raw.Timestamp df)
  && forallb bool_like (map_column (map Raw.Success df)).

(** The frame [read_csv] loads from a log that holds well-formed records:
    a timestamp or an empty cell, a number or an empty cell, a boolean. *)
Definition written (r : Row) : Raw.Row :=
  Raw.mk (match Timestamp r with Some t => TsParsed t | None => TsMissing end)
         (CheckType r) (CheckName r) (TargetHost r)
         (match TargetPort r with Some q => PortNumber q | None => PortMissing end)
         (SBool (Success r)) (Details r).

Definition frame_of (records : list Row) : DataFrame := map written records.

(** The critical criterion in words: the inbound listen check on port
    3389, or one of the two outbound check types. *)
Definition critical (r : Row) : Prop :=
  (CheckType r = Some "Inbound Listen Check"
   /\ exists q, TargetPort r = Some q /\ (q == 3389)%Q)
  \/ (CheckType r = Some "Outbound TCP" \/ CheckType r = Some "Outbound ICMP").


(** The rows of a converted frame that carry the timestamp [t]. *)
Definition rows_at (t : datetime) (rows : list Row) : list Row :=
  filter (fun r => eq_datetime (Timestamp r) t) rows.


(** What a call leaves behind once the failure logic has run on the rows at
    the latest timestamp [t], in closed form. *)
Definition decision (rows : list Row) (t : datetime) : Result :=
  let fails := filter failed (rows_at t rows) in
  let alert := existsb critical_mask fails in
  mkResult alert (strftime t) Line202 (Some rows) (Some t)
    (Some (rows_at t rows)) (Some fails)
    (if alert then Some (filter critical_mask fails) else None)
    (if alert then None else if empty fails then None else Some fails).

(** The three ways a call ends. *)
Inductive outcome (now_str : string) (df : DataFrame) : Result -> Prop :=
| gave_up (site : ReturnSite) :
    df = [] \/ converts df = false ->
    site = Line115 \/ site = Line124 \/ site = Line212 ->
    outcome now_str df (undetermined now_str site)
| no_timestamp :
    df <> [] -> converts df = true ->
    column_max (map Timestamp (convert df)) = None ->
    outcome now_str df
      (mkResult false now_str Line134 (Some (convert df)) None None None None None)
| decided (t : datetime) :
    df <> [] -> converts df = true ->
    column_max (map Timestamp (convert df)) = Some t ->
    outcome now_str df (decision (convert df) t).

(** ** Sample logs *)

Module Sample.

(** 2023-11-14 22:13:20 and the run one minute before. *)
Definition T1 : datetime := 1700000000 * 1000000000.
Definition T0 : datetime := T1 - 60 * 1000000000.

Definition now_str : string := "2023-11-14 22:15:00".

Definition check (t : option datetime) (type name : string) (port : option Q)
    (ok : bool) : Row :=
  mkRow t (Some type) (Some name) (Some "10.0.0.5") port ok None.

Definition rdp_down : Row :=
  check (Some T1) "Inbound Listen Check" "RDP listener" (Some 3389%Q) false.
Definition rdp_up : Row :=
  check (Some T1) "Inbound Listen Check" "RDP listener" (Some 3389%Q) true.
Definition web_down : Row :=
  check (Some T1) "Inbound Listen Check" "HTTP listener" (Some 8080%Q) false.
Definition ping_down : Row :=
  check (Some T1) "Outbound ICMP" "Ping gateway" None false.
Definition old_tcp_down : Row :=
  check (Some T0) "Outbound TCP" "HULFT peer" (Some 30000%Q) false.
Definition tcp_down : Row :=
  check (Some T1) "Outbound TCP" "HULFT peer" (Some 30000%Q) false.

(** Two inbound listen checks down in one run, ports 3389 and 8080. *)
Definition two_listeners : list Row := [rdp_down; web_down].

(** A ping down in the latest run, an outbound TCP check down in the run
    before. *)
Definition two_runs : list Row := [ping_down; rdp_up; old_tcp_down].

(** A row whose timestamp text does not convert, ahead of a failed
    outbound check. *)
Definition garbled_stamp : Raw.Row :=
  Raw.mk (TsInvalid "14/11/2023 around ten") (Some "Inbound Listen Check")
         (Some "RDP listener") (Some "10.0.0.5") (PortNumber 3389) (SBool true)
         None.


(** A row without timestamp, ahead of a failed outbound check. *)
Definition blank_stamp : Raw.Row :=
  Raw.mk TsMissing (Some "Inbound Listen Check") (Some "RDP listener")
         (Some "10.0.0.5") (PortNumber 3389) (SBool true) None.

Definition with_blank_stamp : DataFrame := [blank_stamp; written tcp_down].



(** An inbound listen check down whose port is a word. *)
Definition named_port : Raw.Row :=
  Raw.mk (TsParsed T1) (Some "Inbound Listen Check") (Some "RDP listener")
         (Some "10.0.0.5") (PortText "rdp") (SBool false) None.

Definition with_named_port : DataFrame := [named_port; written rdp_up].

(** A log whose [Success] column holds status codes only: a row without
    timestamp, ahead of an outbound check with status 2. *)
Definition blank_coded : Raw.Row :=
  Raw.mk TsMissing (Some "Inbound Listen Check") (Some "RDP listener")
         (Some "10.0.0.5") (PortNumber 3389) (SNum 0) None.

Definition coded : Raw.Row :=
  Raw.mk (TsParsed T1) (Some "Outbound TCP") (Some "HULFT peer")
         (Some "10.0.0.5") (PortNumber 30000) (SNum 2) None.

Definition with_codes : DataFrame := [blank_coded; coded].

(** A log in which no timestamp converts. *)
Definition no_stamps : DataFrame := [blank_stamp; garbled_stamp].

(** A log whose timestamps are all blank. *)
Definition blank_stamps : DataFrame := [blank_stamp; blank_stamp].

(** A log whose [Success] column holds the numbers 1 and 0. *)
Definition code_one : Raw.Row :=
  Raw.mk (TsParsed T1) (Some "Outbound TCP") (Some "HULFT peer")
         (Some "10.0.0.5") (PortNumber 30000) (SNum 1) None.

Definition code_zero : Raw.Row :=
  Raw.mk (TsParsed T1) (Some "Outbound ICMP") (Some "Ping gateway")
         (Some "10.0.0.1") PortMissing (SNum 0) None.

Definition with_binary_codes : DataFrame := [code_one; code_zero].

End Sample.

(** * The orchestrator around [analyze_results]

    The remaining functions of [NMO.py] and its main block.  They act on
    the host: files that exist or not, and three external programs run
    through [subprocess.run].  The host is a parameter: what a program
    does to the files and what it answers is not fixed here. *)

(** [needle in hay] on strings. *)
Fixpoint contains (needle hay : string) : bool :=
  if String.prefix needle hay then true
  else match hay with
       | EmptyString => false
       | String _ hay' => contains needle hay'
       end.

(** What [subprocess.run(..., capture_output=True, text=True)] returns. *)
Record CompletedProcess := mkProcess {
  returncode : Z;
  stdout : string;
  stderr : string }.

(** How a call of [subprocess.run] ends: with a result, or with one of
    the exceptions the callers tell apart. *)
Inductive Ran :=
| Completed (p : CompletedProcess)
| FileNotFoundError
| TimeoutExpired
| OtherException.

(** What [pd.read_csv] makes of a file: a frame with the columns the
    routine reads, or an exception, of line 112 or of the first access to
    a column that is missing, which a handler of lines 204-212 catches. *)
Inductive Loaded :=
| Frame (df : DataFrame)
| ReadRaises.

(** The files of the host: the size of a file that exists, and what
    [pd.read_csv] makes of it. *)
Record World := mkWorld {
  size_of : string -> option N;
  content : string -> Loaded }.

(** The host and the calls of [subprocess.run] made so far, oldest
    first. *)
Record State := mkState {
  world : World;
  commands : list (list string) }.

(** [os.path.exists(path)]. *)
Definition path_exists (w : World) (path : string) : bool :=
  match size_of w path with Some _ => true | None => false end.

(** [os.path.exists(path) and os.path.getsize(path) > 0]. *)
Definition exists_nonempty (w : World) (path : string) : bool :=
  match size_of w path with Some n => (0 <? n)%N | None => false end.

(** Lines 7-23. *)
Definition join (dir name : string) : string := (dir ++ "\" ++ name)%string.

Definition SCRIPT_DIR : string := "C:\Scripts\hulft_connect".
Definition POWERSHELL_EXE : string := "powershell.exe".
Definition ps_script_path : string := join SCRIPT_DIR "hulcon.ps1".
Definition csv_log_path : string := join SCRIPT_DIR "NetworkDiagnostics_Log.csv".
Definition plotter_script_path : string := join SCRIPT_DIR "NDP.py".
Definition vbs_script_path : string := join SCRIPT_DIR "SendEmail2Admin_HTML.vbs".
Definition graph_output_path : string := join SCRIPT_DIR "network_status_graph.png".

Definition EMAIL_SUBJECT_FAILURE : string :=
  "HULFT Network Alert: RDP or Outbound Connectivity Issues Detected".

(** [EMAIL_BODY_FAILURE.format(timestamp=...)], line 23 and line 339. *)
Definition EMAIL_BODY_FAILURE (timestamp : string) : string :=
  ("Critical network checks failed (RDP Listen or Outbound).|See attached graph for details.|Timestamp: "
   ++ timestamp)%string.

(** Lines 27-32. *)
Definition check_file_exists (w : World) (file_path : string) : bool :=
  path_exists w file_path.

(** Lines 52-68: the verdict on a PowerShell run that returned. *)
Definition powershell_verdict (result : CompletedProcess) : bool :=
  let success := true in
  let success := if returncode result =? 0 then success else false in
  let success :=
    if contains "FATAL: Failed to write results to CSV" (stderr result)
       || (contains "Access to the path" (stderr result)
           && contains "is denied" (stderr result))
    then false else success in
  success.

(** Lines 95-98 and 112-212: [analyze_results] from the path on.  The
    look at the modification time, lines 100-109, only prints. *)
Definition analyze_results_file (now_str : string) (w : World)
    (csv_path : string) : bool * string :=
  if negb (path_exists w csv_path)
     || match size_of w csv_path with Some n => (n =? 0)%N | None => false end
  then (false, now_str)
  else
    match content w csv_path with
    | ReadRaises => (false, now_str)
    | Frame df =>
        let result := analyze_results now_str df in
        (send_alert result, timestamp_str result)
    end.

(** What the main block has done when it ends. *)
Record Report := mkReport {
  exit_status : option Z;
  ps_success : option bool;
  verdict : option (bool * string);
  graph_generated : option bool;
  email_success : option bool }.

Section Host.

(** [subprocess.run] on this host, and [sys.executable]. *)
Variable subprocess_run : list string -> World -> Ran * World.
Variable sys_executable : string.

Definition run (command : list string) (st : State) : Ran * State :=
  let (result, w) := subprocess_run command (world st) in
  (result, mkState w (commands st ++ [command])%list).

(** Lines 34-75. *)
Definition run_powershell_script (script_path : string) (st : State)
    : bool * State :=
  let command := [POWERSHELL_EXE; "-ExecutionPolicy"; "Bypass"; "-NoProfile";
                  "-File"; script_path] in
  match run command st with
  | (Completed result, st') => (powershell_verdict result, st')
  | (_, st') => (false, st')
  end.

(** Lines 214-252. *)
Definition generate_graph (plotter_script csv_log output_path : string)
    (days_to_display : option Z) (st : State) : bool * State :=
  if negb (path_exists (world st) plotter_script) then (false, st)
  else
    let command := [sys_executable; plotter_script; csv_log; "-o"; output_path] in
    let command :=
      match days_to_display with
      | Some d => (command ++ ["-d"; decimal d])%list
      | None => command
      end in
    match run command st with
    | (Completed result, st') =>
        (exists_nonempty (world st') output_path, st')
    | (_, st') => (false, st')
    end.

(** Lines 255-297. *)
Definition send_email_notification (vbs_script subject body
    attachment_path : string) (st : State) : bool * State :=
  if negb (path_exists (world st) attachment_path) then (false, st)
  else if negb (path_exists (world st) vbs_script) then (false, st)
  else
    let command := ["cscript.exe"; "//Nologo"; vbs_script; subject;
                    attachment_path; body] in
    match run command st with
    | (Completed result, st') =>
        ((returncode result =? 0) && contains "SUCCESS" (stdout result), st')
    | (_, st') => (false, st')
    end.

(** Lines 299-353.  [now_str] is the wall clock [analyze_results] reads. *)
Definition main (now_str : string) (st : State) : Report * State :=
  let abort := false in
  let abort := if negb (check_file_exists (world st) ps_script_path)
               then true else abort in
  let abort := if negb (check_file_exists (world st) plotter_script_path)
               then true else abort in
  let abort := if negb (check_file_exists (world st) vbs_script_path)
               then true else abort in
  if abort then (mkReport (Some 1) None None None None, st)
  else
    let (ps_success, st1) := run_powershell_script ps_script_path st in
    let '(send_alert_based_on_criteria, timestamp_str) :=
      analyze_results_file now_str (world st1) csv_log_path in
    let (graph_generated, st2) :=
      if path_exists (world st1) csv_log_path
      then generate_graph plotter_script_path csv_log_path graph_output_path
             (Some 3) st1
      else (false, st1) in
    let (email_success, st3) :=
      if send_alert_based_on_criteria then
        if graph_generated then
          let email_body := EMAIL_BODY_FAILURE timestamp_str in
          let (sent, st') :=
            send_email_notification vbs_script_path EMAIL_SUBJECT_FAILURE
              email_body graph_output_path st2 in
          (Some sent, st')
        else (None, st2)
      else (None, st2) in
    (mkReport None (Some ps_success)
       (Some (send_alert_based_on_criteria, timestamp_str))
       (Some graph_generated) email_success, st3).

End Host.

(** The command lines the helpers build (lines 40, 222-225 and 269). *)
Definition powershell_command (script_path : string) : list string :=
  [POWERSHELL_EXE; "-ExecutionPolicy"; "Bypass"; "-NoProfile"; "-File";
   script_path].

Definition plotter_command (sys_executable plotter_script csv_log
    output_path : string) (days_to_display : option Z) : list string :=
  ([sys_executable; plotter_script; csv_log; "-o"; output_path]
   ++ match days_to_display with
      | Some d => ["-d"; decimal d]
      | None => []
      end)%list.

Definition mail_command (vbs_script subject body attachment_path : string)
    : list string :=
  ["cscript.exe"; "//Nologo"; vbs_script; subject; attachment_path; body].

(** A call of [cscript.exe]. *)
Definition is_cscript (command : list string) : bool :=
  match command with
  | program :: _ => String.eqb program "cscript.exe"
  | [] => false
  end.

(** [needle] occurs in [hay]. *)
Definition occurs_in (needle hay : string) : Prop :=
  exists before after, hay = (before ++ needle ++ after)%string.

(** ** Sample hosts *)

Module SampleHost.

Definition put (path : string) (size : N) (w : World) : World :=
  mkWorld (fun p => if String.eqb p path then Some size else size_of w p)
          (content w).

Definition nothing : World := mkWorld (fun _ => None) (fun _ => ReadRaises).

(** The three scripts in place, no log and no graph yet. *)
Definition installed : World :=
  put ps_script_path 4096
    (put plotter_script_path 9000 (put vbs_script_path 2048 nothing)).

(** The log of two runs is on disk as well. *)
Definition with_log : World :=
  mkWorld (size_of (put csv_log_path 512 installed))
          (fun p => if String.eqb p csv_log_path
                    then Frame (frame_of Sample.two_runs) else ReadRaises).

Definition is_program (name : string) (command : list string) : bool :=
  match command with
  | program :: _ => String.eqb program name
  | [] => false
  end.

(** A host on which PowerShell appends to the log, the plotter writes the
    graph and the mailer reports success. *)
Definition healthy (command : list string) (w : World) : Ran * World :=
  if is_program "powershell.exe" command then
    (Completed (mkProcess 0 "checks done" ""), w)
  else if is_program "python.exe" command then
    (Completed (mkProcess 0 "saved" ""), put graph_output_path 20480 w)
  else if is_program "cscript.exe" command then
    (Completed (mkProcess 0 "SUCCESS" ""), w)
  else (FileNotFoundError, w).

(** A host on which the plotter crashes and leaves the files alone. *)
Definition plotter_crashes (command : list string) (w : World) : Ran * World :=
  if is_program "python.exe" command then
    (Completed (mkProcess 1 "" "Traceback (most recent call last):"), w)
  else healthy command w.

(** A host on which PowerShell cannot write the log. *)
Definition log_locked (command : list string) (w : World) : Ran * World :=
  if list_eq_dec string_dec command (powershell_command ps_script_path) then
    (Completed
       (mkProcess 0 ""
          "Access to the path 'C:\Scripts\hulft_connect\NetworkDiagnostics_Log.csv' is denied."),
     w)
  else healthy command w.

Definition start (w : World) : State := mkState w [].

(** The graph of an earlier run is still on disk. *)
Definition with_old_graph : World := put graph_output_path 18000 with_log.

(** The log holds the two listeners down. *)
Definition with_alarming_log : World :=
  mkWorld (size_of with_log)
          (fun p => if String.eqb p csv_log_path
                    then Frame (frame_of Sample.two_listeners) else ReadRaises).

End SampleHost.

(** * The plotter, [NDP.py]

    [plot_network_diagnostics] between the conversions and the drawing:
    the window of days (lines 54-65) and the three frames that feed the
    three plots (lines 78-83), on the frame whose columns lines 48-75 have
    converted. *)

Module NDP.

Record Row := mkRow {
  Timestamp : option datetime;
  CheckType : TextCell;
  CheckName : TextCell;
  Success : bool;
  ResponseTimeMs : option Q }.

(** One day, and [datetime.min] (0001-01-01 00:00:00), in nanoseconds since
    the epoch. *)
Definition day : Z := 86400 * 1000000000.
Definition datetime_min : datetime := - 719162 * day.

(** [pd.Timestamp.min], the earliest instant a [datetime64[ns]] column
    holds. *)
Definition Timestamp_min : datetime := - (2 ^ 63 - 1).

(** [datetime.now() - timedelta(days=days_to_display)], line 57: Python
    raises [OverflowError] when the result would precede [datetime.min]. *)
Definition cutoff_date (now : datetime) (days_to_display : Z) : Exc datetime :=
  if now - days_to_display * day <? datetime_min
  then raise (ValueError "OverflowError: date value out of range")
  else ret (now - days_to_display * day).

(** [df['Timestamp'] >= cutoff_date]: NaT compares false. *)
Definition ge_datetime (c : option datetime) (t : datetime) : bool :=
  match c with Some x => t <=? x | None => false end.

(** Lines 54-65; [now] is the wall clock of line 57. *)
Definition window (now : datetime) (days_to_display : option Z)
    (df : list Row) : Exc (list Row) :=
  match days_to_display with
  | Some d =>
      if 0 <? d then
        cutoff <- cutoff_date now d ;;
        ret (filter (fun r => ge_datetime (Timestamp r) cutoff) df)
      else ret df
  | None => ret df
  end.

(** Lines 79-81. *)
Definition outbound_checks (df : list Row) : list Row :=
  filter (fun r => isin (CheckType r) ["Outbound TCP"; "Outbound ICMP"]) df.

Definition inbound_checks (df : list Row) : list Row :=
  filter (fun r => eq_text (CheckType r) "Inbound Listen Check") df.

Definition ping_speed_checks (df : list Row) : list Row :=
  filter (fun r => eq_text (CheckType r) "Outbound ICMP"
                   && Bool.eqb (Success r) true
                   && negb (isna (ResponseTimeMs r))) df.

(** The test of line 83. *)
Definition no_data (df : list Row) : bool :=
  empty (outbound_checks df) && empty (inbound_checks df)
  && empty (ping_speed_checks df).

(** Sample rows. *)
Definition ping_ok : Row :=
  mkRow (Some Sample.T1) (Some "Outbound ICMP") (Some "Ping gateway") true
        (Some 12%Q).
Definition undated : Row :=
  mkRow None (Some "Outbound TCP") (Some "HULFT peer") false None.
Definition service_check : Row :=
  mkRow (Some Sample.T0) (Some "Service Check") (Some "Spooler") true None.

(** Half an hour after the latest run of the sample logs. *)
Definition sample_now : datetime := Sample.T1 + 1800 * 1000000000.

End NDP.

(** * Properties *)

(** ** The conversions *)

Lemma mapM_total {A B} (f : A -> Exc B) (g : A -> B) (l : list A) :
  (forall a, In a l -> f a = inr (g a)) -> mapM f l = inr (map g l).
Proof.
  induction l as [|a l IH]; intros H; simpl.
  - reflexivity.
  - rewrite (H a (or_introl eq_refl)). simpl.
    rewrite IH by (intros; apply H; now right). reflexivity.
Qed.

Lemma mapM_raises {A B} (f : A -> Exc B) (l : list A) (a : A) (e : Raised) :
  In a l -> f a = inl e -> exists e', mapM f l = inl e'.
Proof.
  induction l as [|x l IH]; intros Hin Hf; simpl in *.
  - contradiction.
  - destruct Hin as [->|Hin].
    + rewrite Hf. simpl. eauto.
    + destruct (f x); simpl; eauto.
      destruct (IH Hin Hf) as [e' ->]. simpl. eauto.
Qed.

Lemma forallb_false_witness {A} (p : A -> bool) (l : list A) :
  forallb p l = false -> exists a, In a l /\ p a = false.
Proof.
  induction l as [|x l IH]; simpl; intros H.
  - discriminate.
  - apply andb_false_iff in H. destruct H as [H|H].
    + exists x. auto.
    + destruct (IH H) as [a [Hin Ha]]. exists a. auto.
Qed.

Lemma to_datetime_total (col : list TimestampCell) :
  forallb datetime_like col = true ->
  to_datetime col = inr (map timestamp_of col).
Proof.
  intros H. apply mapM_total. intros c Hc.
  rewrite forallb_forall in H. specialize (H c Hc).
  destruct c; simpl in *; try reflexivity. discriminate.
Qed.

Lemma to_datetime_raises (col : list TimestampCell) :
  forallb datetime_like col = false -> exists e, to_datetime col = inl e.
Proof.
  intros H. destruct (forallb_false_witness _ _ H) as [c [Hin Hc]].
  destruct c; simpl in Hc; try discriminate.
  apply (mapM_raises to_datetime_cell col (TsInvalid text) (DateParseError text));
    auto.
Qed.

Lemma astype_boolean_total (col : list SuccessCell) :
  forallb bool_like col = true -> astype_boolean col = inr (map nullable col).
Proof.
  intros H. apply mapM_total. intros c Hc.
  rewrite forallb_forall in H. specialize (H c Hc).
  destruct c as [b|s| |z]; simpl in *; try reflexivity; try discriminate.
  destruct z as [|p|p]; try discriminate; try reflexivity.
  destruct p; try discriminate; reflexivity.
Qed.

Lemma astype_boolean_raises (col : list SuccessCell) :
  forallb bool_like col = false -> exists e, astype_boolean col = inl e.
Proof.
  intros H. destruct (forallb_false_witness _ _ H) as [c [Hin Hc]].
  apply (mapM_raises astype_boolean_cell col c
           (TypeError "Need to pass bool-like values")); auto.
  destruct c as [b|s| |z]; simpl in *; try discriminate; try reflexivity.
  destruct z as [|p|p]; try discriminate; try reflexivity.
  destruct p; try discriminate; reflexivity.
Qed.

Lemma fillna_nullable_plain (dt : Dtype) (c : SuccessCell) :
  dt <> dtype_object -> bool_like c = true ->
  match nullable c with Some b => b | None => false end = boolean_of dt c.
Proof.
  intros Hdt Hc. destruct dt; try congruence;
    destruct c as [b|s| |z]; simpl in *; try reflexivity; try discriminate;
    destruct z as [|p|p]; try discriminate; try reflexivity;
    destruct p; try discriminate; reflexivity.
Qed.

Lemma map_column_bool_like_object (col : list SuccessCell) :
  dtype col = dtype_object -> forallb bool_like (map_column col) = true.
Proof.
  intros Hdt. unfold map_column. rewrite Hdt.
  apply forallb_forall. intros c Hc. apply in_map_iff in Hc.
  destruct Hc as [c0 [<- _]]. destruct (map_truth c0); reflexivity.
Qed.

Lemma fillna_after_astype (col : list SuccessCell) :
  forallb bool_like (map_column col) = true ->
  fillna_False (map nullable (map_column col)) = map (boolean_of (dtype col)) col.
Proof.
  unfold map_column, fillna_False. intros H.
  destruct (dtype col) eqn:Hdt; rewrite !map_map; apply map_ext_in; intros c Hc.
  - apply fillna_nullable_plain; [discriminate|].
    rewrite forallb_forall in H. auto.
  - apply fillna_nullable_plain; [discriminate|].
    rewrite forallb_forall in H. auto.
  - simpl. destruct (map_truth c); reflexivity.
Qed.

Lemma assign_converted (dt : Dtype) (df : DataFrame) :
  assign df (map timestamp_of (map Raw.Timestamp df))
            (map to_numeric_coerce (map Raw.TargetPort df))
            (map (boolean_of dt) (map Raw.Success df))
  = map (convert_row dt) df.
Proof.
  induction df as [|r df IH]; simpl.
  - reflexivity.
  - rewrite IH. reflexivity.
Qed.

(** ** The latest timestamp *)

Lemma column_max_none (col : list (option datetime)) :
  column_max col = None <-> forallb isna col = true.
Proof.
  induction col as [|c col IH]; simpl.
  - tauto.
  - destruct c as [t|]; simpl.
    + destruct (column_max col); split; discriminate.
    + exact IH.
Qed.

Lemma column_max_in (col : list (option datetime)) (t : datetime) :
  column_max col = Some t -> In (Some t) col.
Proof.
  revert t. induction col as [|c col IH]; simpl; intros t H.
  - discriminate.
  - destruct c as [x|].
    + destruct (column_max col) as [m|] eqn:Hm.
      * inversion H; subst. destruct (Z.max_spec x m) as [[_ ->]|[_ ->]].
        -- right. apply IH. reflexivity.
        -- left. reflexivity.
      * inversion H; subst. left. reflexivity.
    + right. apply IH. exact H.
Qed.

Lemma column_max_upper (col : list (option datetime)) (t x : datetime) :
  column_max col = Some t -> In (Some x) col -> x <= t.
Proof.
  revert t. induction col as [|c col IH]; simpl; intros t H Hin.
  - contradiction.
  - destruct c as [y|].
    + destruct (column_max col) as [m|] eqn:Hm.
      * inversion H; subst. destruct Hin as [Heq|Hin].
        -- inversion Heq; subst. lia.
        -- specialize (IH m eq_refl Hin). lia.
      * inversion H; subst. destruct Hin as [Heq|Hin].
        -- inversion Heq; subst. lia.
        -- apply column_max_none in Hm. rewrite forallb_forall in Hm.
           specialize (Hm _ Hin). discriminate.
    + destruct Hin as [Heq|Hin]; [discriminate|]. apply IH; assumption.
Qed.

Lemma empty_false_iff {A} (l : list A) : empty l = false <-> l <> [].
Proof. destruct l; simpl; split; congruence. Qed.

Lemma empty_true_iff {A} (l : list A) : empty l = true <-> l = [].
Proof. destruct l; simpl; split; congruence. Qed.

Lemma eq_datetime_iff (c : option datetime) (t : datetime) :
  eq_datetime c t = true <-> c = Some t.
Proof.
  destruct c as [x|]; simpl.
  - rewrite Z.eqb_eq. split; congruence.
  - split; discriminate.
Qed.

Lemma latest_rows_exist (rows : list Row) (t : datetime) :
  column_max (map Timestamp rows) = Some t ->
  filter (fun r => eq_datetime (Timestamp r) t) rows <> [].
Proof.
  intros H. apply column_max_in in H. apply in_map_iff in H.
  destruct H as [r [Hr Hin]]. intros Hnil.
  assert (Hf : In r (filter (fun r => eq_datetime (Timestamp r) t) rows)).
  { apply filter_In. split; [exact Hin|]. apply eq_datetime_iff. exact Hr. }
  rewrite Hnil in Hf. contradiction.
Qed.

(** ** The routine, case by case *)

Lemma converts_split (df : DataFrame) :
  converts df = true <->
  forallb datetime_like (map Raw.Timestamp df) = true
  /\ forallb bool_like (map_column (map Raw.Success df)) = true.
Proof. unfold converts. apply andb_true_iff. Qed.

(** A frame that converts is analysed on its converted rows: either every
    timestamp is NaT, or the failure logic runs on the rows of the latest
    timestamp. *)
Lemma analyze_results_converted (now_str : string) (df : DataFrame) :
  df <> [] -> converts df = true ->
  analyze_results now_str df =
  match column_max (map Timestamp (convert df)) with
  | None => mkResult false now_str Line134 (Some (convert df))
              None None None None None
  | Some t =>
      apply_failure_logic (convert df) t (strftime t)
        (filter (fun r => eq_datetime (Timestamp r) t) (convert df))
  end.
Proof.
  intros Hne Hconv. apply converts_split in Hconv. destruct Hconv as [Hts Hsu].
  unfold analyze_results, analyze_body.
  apply empty_false_iff in Hne. rewrite Hne.
  rewrite (to_datetime_total _ Hts).
  unfold after_conversion.
  rewrite (astype_boolean_total _ Hsu). simpl bind.
  rewrite (fillna_after_astype _ Hsu), assign_converted.
  fold (convert df).
  destruct (column_max (map Timestamp (convert df))) as [t|] eqn:Hmax.
  - assert (Hna : forallb isna (map Timestamp (convert df)) = false).
    { destruct (forallb isna (map Timestamp (convert df))) eqn:E; [|reflexivity].
      apply column_max_none in E. congruence. }
    rewrite Hna. simpl bind.
    pose proof (latest_rows_exist _ _ Hmax) as Hlatest.
    apply empty_false_iff in Hlatest. rewrite Hlatest. reflexivity.
  - apply column_max_none in Hmax. rewrite Hmax. reflexivity.
Qed.

(** Any other frame leaves the routine through one of its early exits with
    [(False, now_str)]. *)
Lemma analyze_results_gives_up (now_str : string) (df : DataFrame) :
  df = [] \/ converts df = false ->
  exists site, analyze_results now_str df = undetermined now_str site
               /\ (site = Line115 \/ site = Line124 \/ site = Line212).
Proof.
  intros [->|Hconv].
  - exists Line115. auto.
  - unfold analyze_results, analyze_body.
    destruct (empty df); [exists Line115; auto|].
    unfold converts in Hconv.
    destruct (forallb datetime_like (map Raw.Timestamp df)) eqn:Hts.
    + simpl in Hconv. rewrite (to_datetime_total _ Hts).
      unfold after_conversion.
      destruct (astype_boolean_raises _ Hconv) as [e ->]. simpl.
      exists Line212. auto.
    + destruct (to_datetime_raises _ Hts) as [e ->].
      exists Line124. auto.
Qed.

(** ** The failure logic *)

Lemma filter_nonempty_iff {A} (p : A -> bool) (l : list A) :
  empty (filter p l) = false <-> exists a, In a l /\ p a = true.
Proof.
  rewrite empty_false_iff. split.
  - intros H. destruct (filter p l) as [|a l'] eqn:E; [congruence|].
    exists a. apply filter_In. rewrite E. now left.
  - intros [a Ha] Hnil. apply filter_In in Ha. rewrite Hnil in Ha. contradiction.
Qed.

Lemma failed_iff (r : Row) : failed r = true <-> Success r = false.
Proof. unfold failed. destruct (Success r); simpl; split; congruence. Qed.

Lemma eq_text_iff (c : TextCell) (s : string) :
  eq_text c s = true <-> c = Some s.
Proof.
  destruct c as [x|]; simpl.
  - rewrite String.eqb_eq. split; congruence.
  - split; discriminate.
Qed.

Lemma eq_float_iff (c : option Q) (q : Q) :
  eq_float c q = true <-> exists x, c = Some x /\ (x == q)%Q.
Proof.
  destruct c as [x|]; simpl.
  - rewrite Qeq_bool_iff. split.
    + intros H. exists x. auto.
    + intros [y [Hy H]]. inversion Hy; subst. exact H.
  - split; [discriminate|]. intros [y [Hy _]]. discriminate.
Qed.

Lemma outbound_mask_iff (r : Row) :
  outbound_mask r = true <->
  CheckType r = Some "Outbound TCP" \/ CheckType r = Some "Outbound ICMP".
Proof.
  unfold outbound_mask, isin. destruct (CheckType r) as [x|]; simpl.
  - rewrite !orb_true_iff, !String.eqb_eq. split.
    + intros [H|[H|H]]; [left|right|discriminate]; congruence.
    + intros [H|H]; inversion H; auto.
  - split; [discriminate|]. intros [H|H]; discriminate.
Qed.

Lemma rdp_mask_iff (r : Row) :
  rdp_mask r = true <->
  CheckType r = Some "Inbound Listen Check"
  /\ exists q, TargetPort r = Some q /\ (q == 3389)%Q.
Proof.
  unfold rdp_mask. rewrite andb_true_iff, eq_text_iff, eq_float_iff. tauto.
Qed.

(** The mask of lines 173-174 decides the criterion. *)
Lemma critical_mask_iff (r : Row) : critical_mask r = true <-> critical r.
Proof.
  unfold critical_mask, critical.
  rewrite orb_true_iff, rdp_mask_iff, outbound_mask_iff. tauto.
Qed.

Lemma critical_mask_false_iff (r : Row) : critical_mask r = false <-> ~ critical r.
Proof.
  rewrite <- critical_mask_iff. destruct (critical_mask r); split; congruence.
Qed.

(** The two tests of lines 156-167 together ask for one failure under the
    mask of lines 173-174. *)
Lemma alert_test (fails : list Row) :
  negb (empty (filter rdp_mask fails)) || negb (empty (filter outbound_mask fails))
  = existsb critical_mask fails.
Proof.
  induction fails as [|r fails IH]; simpl.
  - reflexivity.
  - unfold critical_mask at 1. rewrite <- IH.
    destruct (rdp_mask r), (outbound_mask r); simpl; try reflexivity.
    apply orb_true_r.
Qed.

Lemma filter_all {A} (p : A -> bool) (l : list A) :
  (forall a, In a l -> p a = true) -> filter p l = l.
Proof.
  induction l as [|a l IH]; simpl; intros H.
  - reflexivity.
  - rewrite (H a (or_introl eq_refl)). f_equal. apply IH. intros; apply H; now right.
Qed.

Lemma existsb_false_all {A} (p : A -> bool) (l : list A) :
  existsb p l = false -> forall a, In a l -> p a = false.
Proof.
  intros H a Ha. destruct (p a) eqn:E; [|reflexivity].
  assert (existsb p l = true) by (apply existsb_exists; eauto). congruence.
Qed.

(** What the failure logic leaves behind, in full. *)
Lemma apply_failure_logic_spec (df : list Row) (t : datetime) (s : string)
    (batch : list Row) :
  let fails := filter failed batch in
  let alert := existsb critical_mask fails in
  apply_failure_logic df t s batch =
  mkResult alert s Line202 (Some df) (Some t) (Some batch) (Some fails)
    (if alert then Some (filter critical_mask fails) else None)
    (if alert then None else if empty fails then None else Some fails).
Proof.
  intros fails alert. unfold apply_failure_logic. fold fails.
  destruct (empty fails) eqn:Hempty.
  - apply empty_true_iff in Hempty. subst alert. rewrite Hempty. reflexivity.
  - rewrite alert_test. fold alert. destruct alert eqn:Halert.
    + reflexivity.
    + f_equal. f_equal. apply filter_all. intros r Hr.
      subst alert. rewrite (existsb_false_all _ _ Halert r Hr). reflexivity.
Qed.

Lemma analyze_results_outcome (now_str : string) (df : DataFrame) :
  outcome now_str df (analyze_results now_str df).
Proof.
  destruct df as [|raw df'] eqn:Hdf.
  - apply (gave_up now_str [] Line115); auto.
  - rewrite <- Hdf. assert (Hne : df <> []) by (rewrite Hdf; discriminate).
    clear Hdf. destruct (converts df) eqn:Hconv.
    + rewrite (analyze_results_converted now_str df Hne Hconv).
      destruct (column_max (map Timestamp (convert df))) as [t|] eqn:Hmax.
      * rewrite apply_failure_logic_spec. apply decided; assumption.
      * apply no_timestamp; assumption.
    + destruct (analyze_results_gives_up now_str df (or_intror Hconv))
        as [site [-> Hsite]].
      apply gave_up; auto.
Qed.

Lemma rows_at_In (t : datetime) (rows : list Row) (r : Row) :
  In r (rows_at t rows) <-> In r rows /\ Timestamp r = Some t.
Proof. unfold rows_at. rewrite filter_In, eq_datetime_iff. tauto. Qed.

Lemma failures_In (batch : list Row) (r : Row) :
  In r (filter failed batch) <-> In r batch /\ Success r = false.
Proof. rewrite filter_In, failed_iff. tauto. Qed.

Lemma alert_iff (batch : list Row) :
  existsb critical_mask (filter failed batch) = true <->
  exists r, In r batch /\ Success r = false /\ critical r.
Proof.
  rewrite existsb_exists. split.
  - intros [r [Hin Hc]]. apply failures_In in Hin. apply critical_mask_iff in Hc.
    exists r. tauto.
  - intros [r [Hin [Hs Hc]]]. exists r. split.
    + apply failures_In. auto.
    + apply critical_mask_iff. exact Hc.
Qed.

(** * The claims *)




Lemma decision_lists (rows : list Row) (t : datetime) :
  let R := decision rows t in
  let fails := filter failed (rows_at t rows) in
  (send_alert R = true ->
     criticalFailures R = filter critical_mask fails
     /\ nonCriticalFailures R = [])
  /\ (send_alert R = false ->
        criticalFailures R = [] /\ nonCriticalFailures R = fails
        /\ forall r, In r fails -> ~ critical r).
Proof.
  cbv zeta. unfold criticalFailures, nonCriticalFailures, decision. simpl.
  destruct (existsb critical_mask (filter failed (rows_at t rows))) eqn:Halert.
  - split; [auto | discriminate].
  - split; [discriminate | intros _].
    split; [reflexivity|]. split.
    + destruct (filter failed (rows_at t rows)); reflexivity.
    + intros r Hr. apply critical_mask_false_iff.
      apply (existsb_false_all _ _ Halert r Hr).
Qed.



(** ** Logs of well-formed records *)

Lemma dtype_written (records : list Row) :
  dtype (map Raw.Success (frame_of records)) = dtype_bool.
Proof.
  unfold dtype, frame_of. rewrite map_map.
  replace (forallb is_SBool (map (fun r => Raw.Success (written r)) records))
    with true; [reflexivity|].
  symmetry. apply forallb_forall. intros c Hc. apply in_map_iff in Hc.
  destruct Hc as [r [<- _]]. reflexivity.
Qed.

Lemma converts_frame_of (records : list Row) : converts (frame_of records) = true.
Proof.
  apply converts_split. split.
  - apply forallb_forall. intros c Hc. unfold frame_of in Hc.
    rewrite map_map in Hc. apply in_map_iff in Hc. destruct Hc as [r [<- _]].
    simpl. destruct (Timestamp r); reflexivity.
  - unfold map_column. rewrite dtype_written.
    apply forallb_forall. intros c Hc. unfold frame_of in Hc.
    rewrite map_map in Hc. apply in_map_iff in Hc. destruct Hc as [r [<- _]].
    reflexivity.
Qed.

Lemma convert_frame_of (records : list Row) : convert (frame_of records) = records.
Proof.
  unfold convert. rewrite dtype_written. unfold frame_of. rewrite map_map.
  rewrite <- (map_id records) at 2. apply map_ext. intros r.
  destruct r as [ts ty name host port ok details]. unfold convert_row, written.
  simpl. destruct ts, port; reflexivity.
Qed.

Lemma frame_of_nonempty (records : list Row) :
  records <> [] -> frame_of records <> [].
Proof. destruct records; simpl; congruence. Qed.

Lemma column_max_constant (rows : list Row) (t : datetime) :
  rows <> [] -> (forall r, In r rows -> Timestamp r = Some t) ->
  column_max (map Timestamp rows) = Some t.
Proof.
  induction rows as [|r rows IH]; intros Hne Hall.
  - congruence.
  - simpl. rewrite (Hall r (or_introl eq_refl)).
    destruct rows as [|r' rows'].
    + reflexivity.
    + rewrite IH; [|discriminate|intros; apply Hall; now right].
      f_equal. lia.
Qed.

Lemma rows_at_idempotent (rows : list Row) (t : datetime) :
  rows_at t (rows_at t rows) = rows_at t rows.
Proof.
  unfold rows_at at 1. apply filter_all. intros r Hr.
  apply rows_at_In in Hr. apply eq_datetime_iff. tauto.
Qed.

(** The rows at the latest timestamp, analysed on their own, give the
    decision of the whole frame. *)
Lemma decision_of_latest_rows (rows : list Row) (t : datetime) :
  let R := decision rows t in
  let R' := decision (rows_at t rows) t in
  send_alert R' = send_alert R /\ timestamp_str R' = timestamp_str R
  /\ criticalFailures R' = criticalFailures R
  /\ nonCriticalFailures R' = nonCriticalFailures R.
Proof.
  cbv zeta. unfold decision, criticalFailures, nonCriticalFailures. simpl.
  rewrite rows_at_idempotent. repeat split; reflexivity.
Qed.

(** C3.  On a log of one or more records that all carry a timestamp, the
    routine keeps exactly the records whose timestamp equals the greatest
    one, compared for equality.  A record of an older timestamp is not among
    them, whatever it reports, and takes no part in the decision: the alert
    is a function of the kept records, and analysing these alone gives the
    same alert, timestamp and failure lists. *)
Theorem C3_latest_batch_only (now_str : string) (records : list Row) :
  records <> [] ->
  (forall r, In r records -> Timestamp r <> None) ->
  let R := analyze_results now_str (frame_of records) in
  exists latest batch,
    column_max (map Timestamp records) = Some latest
    /\ (forall r t, In r records -> Timestamp r = Some t -> t <= latest)
    /\ latest_results R = Some batch
    /\ (forall r, In r batch <-> In r records /\ Timestamp r = Some latest)
    /\ (forall r t, In r records -> Timestamp r = Some t -> t < latest ->
                    ~ In r batch)
    /\ send_alert R = existsb critical_mask (filter failed batch)
    /\ (send_alert R = true <->
        exists r, In r records /\ Timestamp r = Some latest
                  /\ Success r = false /\ critical r)
    /\ (let R' := analyze_results now_str (frame_of batch) in
        send_alert R' = send_alert R /\ timestamp_str R' = timestamp_str R
        /\ criticalFailures R' = criticalFailures R
        /\ nonCriticalFailures R' = nonCriticalFailures R).
Proof.
  intros Hne Hall. cbv zeta.
  destruct (column_max (map Timestamp records)) as [latest|] eqn:Hmax.
  2:{ exfalso. apply column_max_none in Hmax. rewrite forallb_forall in Hmax.
      destruct records as [|r records']; [congruence|].
      apply (Hall r (or_introl eq_refl)).
      specialize (Hmax (Timestamp r) (or_introl eq_refl)).
      destruct (Timestamp r); [discriminate|reflexivity]. }
  pose proof (frame_of_nonempty records Hne) as Hne'.
  pose proof (converts_frame_of records) as Hconv.
  rewrite (analyze_results_converted now_str _ Hne' Hconv).
  rewrite convert_frame_of, Hmax, apply_failure_logic_spec.
  fold (rows_at latest records). set (batch := rows_at latest records).
  assert (Hbatch : batch <> []) by (apply latest_rows_exist; exact Hmax).
  exists latest, batch. simpl.
  split; [reflexivity|]. split.
  { intros r t Hr Ht. apply (column_max_upper _ _ _ Hmax).
    rewrite <- Ht. apply in_map. exact Hr. }
  split; [reflexivity|]. split; [intros r; apply rows_at_In|]. split.
  { intros r t Hr Ht Hlt Hin. apply rows_at_In in Hin.
    destruct Hin as [_ Hin]. rewrite Ht in Hin. inversion Hin. lia. }
  split; [reflexivity|]. split.
  { rewrite alert_iff. split.
    - intros [r [Hr [Hs Hc]]]. apply rows_at_In in Hr. exists r. tauto.
    - intros [r [Hr [Ht [Hs Hc]]]]. exists r. split; [|tauto].
      apply rows_at_In. tauto. }
  rewrite (analyze_results_converted now_str _ (frame_of_nonempty batch Hbatch)
             (converts_frame_of batch)).
  rewrite convert_frame_of.
  rewrite (column_max_constant batch latest Hbatch)
    by (intros r Hr; apply rows_at_In in Hr; tauto).
  rewrite apply_failure_logic_spec. fold (rows_at latest batch).
  exact (decision_of_latest_rows records latest).
Qed.

Lemma C3_witness :
  exists latest batch,
    column_max (map Timestamp Sample.two_runs) = Some latest
    /\ (forall r t, In r Sample.two_runs -> Timestamp r = Some t -> t <= latest)
    /\ latest_results (analyze_results Sample.now_str (frame_of Sample.two_runs))
       = Some batch
    /\ (forall r, In r batch <->
                  In r Sample.two_runs /\ Timestamp r = Some latest)
    /\ (forall r t, In r Sample.two_runs -> Timestamp r = Some t -> t < latest ->
                    ~ In r batch)
    /\ send_alert (analyze_results Sample.now_str (frame_of Sample.two_runs))
       = existsb critical_mask (filter failed batch)
    /\ (send_alert (analyze_results Sample.now_str (frame_of Sample.two_runs))
        = true <->
        exists r, In r Sample.two_runs /\ Timestamp r = Some latest
                  /\ Success r = false /\ critical r)
    /\ (let R' := analyze_results Sample.now_str (frame_of batch) in
        send_alert R' =
          send_alert (analyze_results Sample.now_str (frame_of Sample.two_runs))
        /\ timestamp_str R' =
           timestamp_str (analyze_results Sample.now_str (frame_of Sample.two_runs))
        /\ criticalFailures R' =
           criticalFailures (analyze_results Sample.now_str (frame_of Sample.two_runs))
        /\ nonCriticalFailures R' =
           nonCriticalFailures
             (analyze_results Sample.now_str (frame_of Sample.two_runs))).
Proof.
  apply (C3_latest_batch_only Sample.now_str Sample.two_runs).
  - discriminate.
  - intros r [<-|[<-|[<-|[]]]]; discriminate.
Defined.

(** The log of two runs: the rows kept are the two of the latest run, the
    ping failure raises the alert, and the failed outbound TCP check of the
    run before is not looked at. *)
Example two_runs_scenario :
  let R := analyze_results Sample.now_str (frame_of Sample.two_runs) in
  latest_results R = Some [Sample.ping_down; Sample.rdp_up]
  /\ all_failures R = Some [Sample.ping_down]
  /\ send_alert R = true
  /\ timestamp_str R = "2023-11-14 22:13:20"
  /\ ~ In Sample.old_tcp_down [Sample.ping_down; Sample.rdp_up].
Proof.
  cbv zeta. repeat split; try reflexivity.
  intros [H|[H|[]]]; discriminate H.
Qed.

(** ** Rows of the converted frame *)

Lemma convert_In (df : DataFrame) (r : Row) :
  In r (convert df) <->
  exists raw, In raw df /\ r = convert_row (dtype (map Raw.Success df)) raw.
Proof.
  unfold convert. rewrite in_map_iff. split; intros [raw [H1 H2]]; exists raw; auto.
Qed.

Lemma timestamp_of_Some (c : TimestampCell) (t : datetime) :
  timestamp_of c = Some t <-> c = TsParsed t.
Proof. destruct c; simpl; split; congruence. Qed.

Lemma latest_is_parsed (df : DataFrame) (t : datetime) :
  column_max (map Timestamp (convert df)) = Some t ->
  exists raw, In raw df /\ Raw.Timestamp raw = TsParsed t.
Proof.
  intros H. apply column_max_in in H. apply in_map_iff in H.
  destruct H as [r [Ht Hr]]. apply convert_In in Hr.
  destruct Hr as [raw [Hraw ->]]. simpl in Ht.
  exists raw. split; [exact Hraw|]. apply timestamp_of_Some. exact Ht.
Qed.

Lemma parsed_gives_latest (df : DataFrame) (raw : Raw.Row) (t : datetime) :
  In raw df -> Raw.Timestamp raw = TsParsed t ->
  exists latest, column_max (map Timestamp (convert df)) = Some latest.
Proof.
  intros Hin Ht.
  destruct (column_max (map Timestamp (convert df))) as [latest|] eqn:Hmax.
  - eauto.
  - exfalso. apply column_max_none in Hmax. rewrite forallb_forall in Hmax.
    assert (Hc : In (Some t) (map Timestamp (convert df))).
    { apply in_map_iff.
      exists (convert_row (dtype (map Raw.Success df)) raw). split.
      - simpl. rewrite Ht. reflexivity.
      - apply convert_In. eauto. }
    specialize (Hmax _ Hc). discriminate.
Qed.

(** C4.  On an empty log, and on a log in which no timestamp converts, the
    routine returns [send_alert = False] with the wall clock read at its
    start as timestamp, and reports no critical and no non-critical
    failure. *)
Theorem C4_no_data (now_str : string) (df : DataFrame) :
  df = [] \/ (forall raw t, In raw df -> Raw.Timestamp raw <> TsParsed t) ->
  let R := analyze_results now_str df in
  send_alert R = false /\ timestamp_str R = now_str
  /\ criticalFailures R = [] /\ nonCriticalFailures R = [].
Proof.
  intros Hdata. cbv zeta.
  destruct (analyze_results_outcome now_str df) as [site _ _| |t Hne _ Hmax].
  - repeat split; reflexivity.
  - repeat split; reflexivity.
  - exfalso. destruct Hdata as [->|Hnone]; [congruence|].
    destruct (latest_is_parsed df t Hmax) as [raw [Hin Ht]].
    exact (Hnone raw t Hin Ht).
Qed.

Lemma C4_witness :
  (let R := analyze_results Sample.now_str [] in
   send_alert R = false /\ timestamp_str R = Sample.now_str
   /\ criticalFailures R = [] /\ nonCriticalFailures R = [])
  /\ (let R := analyze_results Sample.now_str Sample.no_stamps in
      send_alert R = false /\ timestamp_str R = Sample.now_str
      /\ criticalFailures R = [] /\ nonCriticalFailures R = [])
  /\ (let R := analyze_results Sample.now_str Sample.blank_stamps in
      send_alert R = false /\ timestamp_str R = Sample.now_str
      /\ criticalFailures R = [] /\ nonCriticalFailures R = []).
Proof.
  split; [|split].
  - apply (C4_no_data Sample.now_str []). left. reflexivity.
  - apply (C4_no_data Sample.now_str Sample.no_stamps). right.
    intros raw t [<-|[<-|[]]]; discriminate.
  - apply (C4_no_data Sample.now_str Sample.blank_stamps). right.
    intros raw t [<-|[<-|[]]]; discriminate.
Defined.

(** ** Rows without timestamp *)







(** ** The [Success] column *)


(** A column that holds a text goes through the table of line 127, after
    which [.astype('boolean')] has nothing to refuse. *)
Lemma text_column_converts (col : list SuccessCell) (s : string) :
  In (SStr s) col -> forallb bool_like (map_column col) = true.
Proof.
  intros Hin. apply map_column_bool_like_object. unfold dtype.
  assert (Hb : forallb is_SBool col = false).
  { destruct (forallb is_SBool col) eqn:E; [|reflexivity].
    rewrite forallb_forall in E. specialize (E _ Hin). discriminate. }
  assert (Hn : forallb is_numeric col = false).
  { destruct (forallb is_numeric col) eqn:E; [|reflexivity].
    rewrite forallb_forall in E. specialize (E _ Hin). discriminate. }
  rewrite Hb, Hn. reflexivity.
Qed.



(** ** The [TargetPort] column *)

Lemma unusable_port_is_NaN (c : PortCell) :
  c = PortMissing \/ (exists text, c = PortText text) ->
  to_numeric_coerce c = None.
Proof. intros [->|[text ->]]; reflexivity. Qed.

Lemma inbound_without_port_not_critical (r : Row) :
  CheckType r = Some "Inbound Listen Check" -> TargetPort r = None ->
  rdp_mask r = false /\ ~ critical r.
Proof.
  intros Hty Hport. split.
  - unfold rdp_mask. rewrite Hport. apply andb_false_r.
  - intros [[_ [q [Hq _]]]|[H|H]]; congruence.
Qed.

(** C7.  A failed inbound listen check among the rows of the latest
    timestamp whose port cell is empty or is no number has NaN as port, so
    it fails the test on port 3389 and does not meet the critical
    criterion.  If the routine alerts, some other failed row of the latest
    timestamp meets the criterion; if it does not, the row is listed as a
    non-critical failure. *)
Theorem C7_unusable_port_not_critical (now_str : string) (df : DataFrame)
    (raw : Raw.Row) (batch : list Row) :
  In raw df ->
  Raw.TargetPort raw = PortMissing
  \/ (exists text, Raw.TargetPort raw = PortText text) ->
  Raw.CheckType raw = Some "Inbound Listen Check" ->
  latest_results (analyze_results now_str df) = Some batch ->
  let R := analyze_results now_str df in
  let r := convert_row (dtype (map Raw.Success df)) raw in
  In r batch -> Success r = false ->
  TargetPort r = None /\ rdp_mask r = false /\ ~ critical r
  /\ (send_alert R = true ->
      exists r', In r' batch /\ Success r' = false /\ critical r' /\ r' <> r)
  /\ (send_alert R = false -> In r (nonCriticalFailures R)).
Proof.
  intros Hin Hport Hty Hbatch. cbv zeta. intros Hr Hfailed.
  set (r := convert_row (dtype (map Raw.Success df)) raw) in *.
  assert (Hnan : TargetPort r = None) by (apply unusable_port_is_NaN; exact Hport).
  destruct (inbound_without_port_not_critical r Hty Hnan) as [Hmask Hnot].
  split; [exact Hnan|]. split; [exact Hmask|]. split; [exact Hnot|].
  destruct (analyze_results_outcome now_str df) as [site _ _| |t _ _ _];
    simpl in Hbatch; try discriminate.
  inversion Hbatch; subst batch; clear Hbatch.
  destruct (decision_lists (convert df) t) as [_ Hno].
  split.
  - simpl. intros Halert. apply alert_iff in Halert.
    destruct Halert as [r' [Hr' [Hs' Hc']]]. exists r'.
    repeat split; try assumption. intros ->. exact (Hnot Hc').
  - intros Halert. destruct (Hno Halert) as [_ [-> _]].
    apply failures_In. auto.
Qed.

Lemma C7_witness :
  let R := analyze_results Sample.now_str Sample.with_named_port in
  let r := convert_row (dtype (map Raw.Success Sample.with_named_port))
             Sample.named_port in
  TargetPort r = None /\ rdp_mask r = false /\ ~ critical r
  /\ (send_alert R = true ->
      exists r', In r' (convert Sample.with_named_port)
                 /\ Success r' = false /\ critical r' /\ r' <> r)
  /\ (send_alert R = false -> In r (nonCriticalFailures R)).
Proof.
  apply (C7_unusable_port_not_critical Sample.now_str Sample.with_named_port
           Sample.named_port (convert Sample.with_named_port)).
  - left. reflexivity.
  - right. exists "rdp". reflexivity.
  - reflexivity.
  - reflexivity.
  - left. reflexivity.
  - reflexivity.
Defined.

(** ** Exceptions and the handlers *)

(** A [Success] column of numbers that holds another number than 0 and 1
    makes line 129 raise; the handler of lines 210-212 turns that into
    [(False, now_str)], although a timestamp of the log converts. *)
Lemma status_codes_are_caught :
  converts Sample.with_codes = false
  /\ Raw.Timestamp Sample.coded = TsParsed Sample.T1
  /\ analyze_body Sample.now_str Sample.with_codes
     = raise (TypeError "Need to pass bool-like values")
  /\ analyze_results Sample.now_str Sample.with_codes
     = undetermined Sample.now_str Line212.
Proof. repeat split; reflexivity. Qed.

(** C8.  Whatever the cells of the log hold, the routine returns a pair:
    an exception raised inside the [try] block ends in the handler, which
    returns [(False, now_str)]; an empty log or columns that do not convert
    give [(False, now_str)] as well.  The routine returns
    [send_alert = True] only if a failed row of the latest timestamp meets
    the critical criterion. *)
Theorem C8_always_decides (now_str : string) (df : DataFrame) :
  let R := analyze_results now_str df in
  (forall e, analyze_body now_str df = inl e ->
             (send_alert R, timestamp_str R) = (false, now_str)
             /\ returned_at R = Line212)
  /\ (forall R0, analyze_body now_str df = inr R0 -> R = R0)
  /\ (df = [] \/ converts df = false ->
      (send_alert R, timestamp_str R) = (false, now_str))
  /\ (send_alert R = true ->
      exists batch r, latest_results R = Some batch /\ In r batch
                      /\ Success r = false /\ critical r).
Proof.
  cbv zeta. split; [|split; [|split]].
  - intros e He. unfold analyze_results. rewrite He. split; reflexivity.
  - intros R0 HR0. unfold analyze_results. rewrite HR0. reflexivity.
  - intros Hbad. destruct (analyze_results_gives_up now_str df Hbad)
      as [site [-> _]]. reflexivity.
  - destruct (analyze_results_outcome now_str df) as [site _ _| |t _ _ _];
      simpl; try discriminate.
    intros Halert. apply alert_iff in Halert. destruct Halert as [r Hr].
    exists (rows_at t (convert df)), r. split; [reflexivity | exact Hr].
Qed.

(** ** The wall clock *)




(** ** The branch of lines 142-144 *)

(** C10.  On a log in which a timestamp converts, the rows of the latest
    timestamp are never an empty frame, and the routine never returns from
    line 144; if the columns convert, the routine does bind these rows. *)
Theorem C10_latest_rows_nonempty (now_str : string) (df : DataFrame) :
  (exists raw t, In raw df /\ Raw.Timestamp raw = TsParsed t) ->
  let R := analyze_results now_str df in
  returned_at R <> Line144
  /\ (forall batch, latest_results R = Some batch -> batch <> [])
  /\ (converts df = true ->
      exists batch, latest_results R = Some batch /\ batch <> []).
Proof.
  intros [raw [t [Hin Ht]]]. cbv zeta.
  destruct (analyze_results_outcome now_str df)
    as [site Hbad Hsite|Hne Hconv Hmax|latest Hne Hconv Hmax].
  - split; [|split].
    + simpl. destruct Hsite as [-> | [-> | ->]]; discriminate.
    + simpl. discriminate.
    + intros Hconv. exfalso. destruct Hbad as [->|Hbad]; [contradiction|].
      congruence.
  - exfalso. destruct (parsed_gives_latest df raw t Hin Ht) as [latest Hl].
    congruence.
  - pose proof (latest_rows_exist _ _ Hmax) as Hrows.
    split; [|split].
    + simpl. discriminate.
    + simpl. intros batch Hb. inversion Hb; subst batch. exact Hrows.
    + intros _. exists (rows_at latest (convert df)). split; [reflexivity|].
      exact Hrows.
Qed.

Lemma C10_witness :
  let R := analyze_results Sample.now_str Sample.with_blank_stamp in
  returned_at R <> Line144
  /\ (forall batch, latest_results R = Some batch -> batch <> [])
  /\ (converts Sample.with_blank_stamp = true ->
      exists batch, latest_results R = Some batch /\ batch <> []).
Proof.
  apply (C10_latest_rows_nonempty Sample.now_str Sample.with_blank_stamp).
  exists (written Sample.tcp_down), Sample.T1.
  split; [right; left; reflexivity | reflexivity].
Defined.

(** * Further properties of [analyze_results] *)

(** ** A latest run without failure *)

(** When every row of the latest timestamp has passed, the routine takes
    the branch of lines 150-152: no alert, the latest timestamp of the log
    as timestamp, an empty frame of failures and no failure list. *)
Theorem all_passed_no_alert (now_str : string) (df : DataFrame)
    (batch : list Row) :
  latest_results (analyze_results now_str df) = Some batch ->
  (forall r, In r batch -> Success r = true) ->
  let R := analyze_results now_str df in
  send_alert R = false
  /\ returned_at R = Line202
  /\ all_failures R = Some []
  /\ criticalFailures R = [] /\ nonCriticalFailures R = []
  /\ exists latest, column_max (map Timestamp (convert df)) = Some latest
                    /\ timestamp_str R = strftime latest.
Proof.
  intros Hbatch Hall. cbv zeta.
  destruct (analyze_results_outcome now_str df) as [site _ _| |t _ _ Hmax];
    simpl in Hbatch; try discriminate.
  inversion Hbatch; subst batch; clear Hbatch.
  assert (Hnone : filter failed (rows_at t (convert df)) = []).
  { destruct (filter failed (rows_at t (convert df))) as [|r l] eqn:E;
      [reflexivity|].
    assert (Hr : In r (filter failed (rows_at t (convert df))))
      by (rewrite E; now left).
    apply failures_In in Hr. destruct Hr as [Hr Hs].
    rewrite (Hall r Hr) in Hs. discriminate. }
  unfold decision, criticalFailures, nonCriticalFailures. simpl.
  rewrite Hnone. simpl. repeat split; try reflexivity.
  exists t. split; [exact Hmax | reflexivity].
Qed.

Lemma all_passed_no_alert_witness :
  let R := analyze_results Sample.now_str (frame_of [Sample.rdp_up]) in
  send_alert R = false
  /\ returned_at R = Line202
  /\ all_failures R = Some []
  /\ criticalFailures R = [] /\ nonCriticalFailures R = []
  /\ exists latest,
       column_max (map Timestamp (convert (frame_of [Sample.rdp_up])))
       = Some latest
       /\ timestamp_str R = strftime latest.
Proof.
  apply (all_passed_no_alert Sample.now_str (frame_of [Sample.rdp_up])
           [Sample.rdp_up]).
  - reflexivity.
  - intros r [<-|[]]. reflexivity.
Defined.

(** ** The order of the rows *)











(** ** A [Success] column of numbers *)

Lemma dtype_of_numbers (col : list SuccessCell) (z : Z) :
  forallb is_numeric col = true -> In (SNum z) col -> dtype col = dtype_number.
Proof.
  intros Hnum Hin. unfold dtype. rewrite Hnum.
  destruct (forallb is_SBool col) eqn:E; [|reflexivity].
  rewrite forallb_forall in E. specialize (E _ Hin). discriminate.
Qed.

Lemma refused_column_line212 (now_str : string) (df : DataFrame) :
  df <> [] ->
  forallb datetime_like (map Raw.Timestamp df) = true ->
  forallb bool_like (map_column (map Raw.Success df)) = false ->
  analyze_results now_str df = undetermined now_str Line212.
Proof.
  intros Hne Hts Hbad. unfold analyze_results, analyze_body.
  apply empty_false_iff in Hne. rewrite Hne, (to_datetime_total _ Hts).
  unfold after_conversion. destruct (astype_boolean_raises _ Hbad) as [e ->].
  reflexivity.
Qed.

(** A [Success] column that holds only numbers and empty cells skips the
    table of line 127; if one of its numbers is neither 0 nor 1, line 129
    raises and the routine returns [(False, now_str)] whatever the rows
    report, from line 212 when the timestamps convert. *)
Theorem status_codes_are_refused (now_str : string) (df : DataFrame)
    (raw : Raw.Row) (z : Z) :
  forallb is_numeric (map Raw.Success df) = true ->
  In raw df -> Raw.Success raw = SNum z -> z <> 0 -> z <> 1 ->
  let R := analyze_results now_str df in
  send_alert R = false /\ timestamp_str R = now_str
  /\ latest_results R = None
  /\ (forallb datetime_like (map Raw.Timestamp df) = true ->
      R = undetermined now_str Line212).
Proof.
  intros Hnum Hin Hcell Hz0 Hz1. cbv zeta.
  assert (Hcol : In (SNum z) (map Raw.Success df))
    by (rewrite <- Hcell; apply in_map; exact Hin).
  assert (Hbad : forallb bool_like (map_column (map Raw.Success df)) = false).
  { unfold map_column. rewrite (dtype_of_numbers _ z Hnum Hcol).
    destruct (forallb bool_like (map Raw.Success df)) eqn:E; [|reflexivity].
    rewrite forallb_forall in E. specialize (E _ Hcol). simpl in E.
    destruct z as [|p|p]; try congruence. destruct p; congruence. }
  assert (Hconv : converts df = false)
    by (unfold converts; rewrite Hbad; apply andb_false_r).
  assert (Hne : df <> []) by (intros ->; contradiction).
  split; [|split; [|split]].
  - destruct (analyze_results_gives_up now_str df (or_intror Hconv))
      as [site [-> _]]. reflexivity.
  - destruct (analyze_results_gives_up now_str df (or_intror Hconv))
      as [site [-> _]]. reflexivity.
  - destruct (analyze_results_gives_up now_str df (or_intror Hconv))
      as [site [-> _]]. reflexivity.
  - intros Hts. exact (refused_column_line212 now_str df Hne Hts Hbad).
Qed.

Lemma status_codes_are_refused_witness :
  let R := analyze_results Sample.now_str Sample.with_codes in
  send_alert R = false /\ timestamp_str R = Sample.now_str
  /\ latest_results R = None
  /\ (forallb datetime_like (map Raw.Timestamp Sample.with_codes) = true ->
      R = undetermined Sample.now_str Line212).
Proof.
  apply (status_codes_are_refused Sample.now_str Sample.with_codes
           Sample.coded 2).
  - reflexivity.
  - right. left. reflexivity.
  - reflexivity.
  - discriminate.
  - discriminate.
Defined.

Lemma df_converted_inv (now_str : string) (df : DataFrame) (rows : list Row) :
  df_converted (analyze_results now_str df) = Some rows ->
  rows = convert df /\ df <> [] /\ converts df = true.
Proof.
  destruct (analyze_results_outcome now_str df) as [site _ _|Hne Hc _|t Hne Hc _];
    simpl; intros H; try discriminate; inversion H; auto.
Qed.

(** The numerals 0 and 1 in the [Success] column are read by the dtype of
    the column.  In a column of numbers, 1 is a passed check and 0 a failed
    one.  In a column that also holds a text, the cells are texts, the
    table of line 127 knows neither ["1"] nor ["0"], and both are failed
    checks. *)
Theorem numerals_read_by_column (now_str : string) (df : DataFrame)
    (rows : list Row) (raw : Raw.Row) :
  df_converted (analyze_results now_str df) = Some rows ->
  In raw df ->
  let r := convert_row (dtype (map Raw.Success df)) raw in
  In r rows
  /\ (forallb is_numeric (map Raw.Success df) = true ->
      (Raw.Success raw = SNum 1 -> Success r = true)
      /\ (Raw.Success raw = SNum 0 -> Success r = false))
  /\ (Raw.Success raw = SStr "1" -> Success r = false)
  /\ (Raw.Success raw = SStr "0" -> Success r = false).
Proof.
  intros Hconv Hin. cbv zeta.
  destruct (df_converted_inv _ _ _ Hconv) as [-> _].
  split; [apply convert_In; eauto|]. split; [|split].
  - intros Hnum. split; intros Hcell; simpl; rewrite Hcell.
    + rewrite (dtype_of_numbers _ 1 Hnum)
        by (rewrite <- Hcell; apply in_map; exact Hin).
      reflexivity.
    + rewrite (dtype_of_numbers _ 0 Hnum)
        by (rewrite <- Hcell; apply in_map; exact Hin).
      reflexivity.
  - intros Hcell. simpl. rewrite Hcell.
    destruct (dtype (map Raw.Success df)); reflexivity.
  - intros Hcell. simpl. rewrite Hcell.
    destruct (dtype (map Raw.Success df)); reflexivity.
Qed.

Lemma numerals_read_by_column_witness :
  let r := convert_row (dtype (map Raw.Success Sample.with_binary_codes))
             Sample.code_one in
  In r (convert Sample.with_binary_codes)
  /\ (forallb is_numeric (map Raw.Success Sample.with_binary_codes) = true ->
      (Raw.Success Sample.code_one = SNum 1 -> Success r = true)
      /\ (Raw.Success Sample.code_one = SNum 0 -> Success r = false))
  /\ (Raw.Success Sample.code_one = SStr "1" -> Success r = false)
  /\ (Raw.Success Sample.code_one = SStr "0" -> Success r = false).
Proof.
  apply (numerals_read_by_column Sample.now_str Sample.with_binary_codes
           (convert Sample.with_binary_codes) Sample.code_one).
  - reflexivity.
  - left. reflexivity.
Defined.

(** * Properties of the orchestrator *)

(** ** The substring test *)

Lemma prefix_iff (needle hay : string) :
  String.prefix needle hay = true <-> exists after, hay = (needle ++ after)%string.
Proof.
  revert hay. induction needle as [|a needle IH]; intros hay.
  - split; [intros _; exists hay; reflexivity|]. intros _. destruct hay; reflexivity.
  - destruct hay as [|b hay]; simpl.
    + split; [discriminate|]. intros [after H]. discriminate.
    + destruct (ascii_dec a b) as [->|Hne].
      * rewrite IH. split; intros [after H]; exists after.
        -- now rewrite H.
        -- now inversion H.
      * split; [discriminate|]. intros [after H]. inversion H. congruence.
Qed.

Lemma contains_unfold (needle hay : string) :
  contains needle hay =
  if String.prefix needle hay then true
  else match hay with
       | EmptyString => false
       | String _ hay' => contains needle hay'
       end.
Proof. destruct hay; reflexivity. Qed.

Lemma contains_iff (needle hay : string) :
  contains needle hay = true <-> occurs_in needle hay.
Proof.
  unfold occurs_in. induction hay as [|c hay IH]; rewrite contains_unfold.
  - destruct (String.prefix needle EmptyString) eqn:E.
    + split; [intros _|reflexivity]. apply prefix_iff in E.
      destruct E as [after E]. exists EmptyString, after. exact E.
    + split; [discriminate|]. intros [before [after H]].
      destruct before; simpl in H.
      * assert (String.prefix needle EmptyString = true)
          by (apply prefix_iff; eauto). congruence.
      * discriminate.
  - destruct (String.prefix needle (String c hay)) eqn:E.
    + split; [intros _|reflexivity]. apply prefix_iff in E.
      destruct E as [after E]. exists EmptyString, after. exact E.
    + rewrite IH. split.
      * intros [before [after H]]. exists (String c before), after.
        simpl. now rewrite H.
      * intros [before [after H]]. destruct before as [|b before]; simpl in H.
        -- assert (String.prefix needle (String c hay) = true)
             by (apply prefix_iff; eauto). congruence.
        -- inversion H. eauto.
Qed.

Lemma contains_false_iff (needle hay : string) :
  contains needle hay = false <-> ~ occurs_in needle hay.
Proof.
  rewrite <- contains_iff. destruct (contains needle hay); split; congruence.
Qed.

(** ** The helpers *)

Local Open Scope list_scope.

Section HostFacts.

Variable subprocess_run : list string -> World -> Ran * World.
Variable sys_executable : string.

Lemma run_eq (command : list string) (st : State) :
  run subprocess_run command st
  = (fst (subprocess_run command (world st)),
     mkState (snd (subprocess_run command (world st)))
             (commands st ++ [command])).
Proof. unfold run. destruct (subprocess_run command (world st)); reflexivity. Qed.

Lemma powershell_verdict_iff (p : CompletedProcess) :
  powershell_verdict p = true <->
  returncode p = 0
  /\ ~ occurs_in "FATAL: Failed to write results to CSV" (stderr p)
  /\ ~ (occurs_in "Access to the path" (stderr p)
        /\ occurs_in "is denied" (stderr p)).
Proof.
  unfold powershell_verdict. rewrite <- !contains_iff.
  destruct (returncode p =? 0) eqn:Hrc;
    [apply Z.eqb_eq in Hrc | apply Z.eqb_neq in Hrc];
    destruct (contains "FATAL: Failed to write results to CSV" (stderr p)),
             (contains "Access to the path" (stderr p)),
             (contains "is denied" (stderr p)); simpl;
    intuition congruence.
Qed.

(** [run_powershell_script] makes one call, of PowerShell with the
    execution policy bypassed, and reports success exactly when the call
    returned with exit code 0 and a standard error that carries neither
    the fatal marker nor both halves of the access-denied message; a call
    that raises is a failure. *)
Theorem powershell_success_iff (script_path : string) (st : State) :
  let command := powershell_command script_path in
  let out := run_powershell_script subprocess_run script_path st in
  commands (snd out) = commands st ++ [command]
  /\ world (snd out) = snd (subprocess_run command (world st))
  /\ (fst out = true <->
      exists p, fst (subprocess_run command (world st)) = Completed p
                /\ returncode p = 0
                /\ ~ occurs_in "FATAL: Failed to write results to CSV" (stderr p)
                /\ ~ (occurs_in "Access to the path" (stderr p)
                      /\ occurs_in "is denied" (stderr p))).
Proof.
  cbv zeta. unfold run_powershell_script, powershell_command. rewrite run_eq.
  destruct (fst (subprocess_run _ (world st))) as [p| | |] eqn:E; simpl;
    (split; [reflexivity|]); (split; [reflexivity|]).
  - rewrite powershell_verdict_iff. split.
    + intros H. exists p. tauto.
    + intros [p' [Hp H]]. inversion Hp; subst. exact H.
  - split; [discriminate|]. intros [p [Hp _]]. discriminate.
  - split; [discriminate|]. intros [p [Hp _]]. discriminate.
  - split; [discriminate|]. intros [p [Hp _]]. discriminate.
Qed.

Lemma generate_graph_eq (plotter_script csv_log output_path : string)
    (days : option Z) (st : State) :
  generate_graph subprocess_run sys_executable plotter_script csv_log
    output_path days st
  = if negb (path_exists (world st) plotter_script) then (false, st)
    else
      let command := plotter_command sys_executable plotter_script csv_log
                       output_path days in
      let w := snd (subprocess_run command (world st)) in
      (match fst (subprocess_run command (world st)) with
       | Completed _ => exists_nonempty w output_path
       | _ => false
       end, mkState w (commands st ++ [command])).
Proof.
  unfold generate_graph, plotter_command.
  destruct (negb (path_exists (world st) plotter_script)); [reflexivity|].
  cbv zeta. destruct days as [d|]; simpl app; rewrite run_eq;
    destruct (fst (subprocess_run _ (world st))); reflexivity.
Qed.

(** [generate_graph] runs nothing when the plotter script is missing.
    Otherwise it makes one call and reports success exactly when the call
    returned, with whatever exit code, and the output file then exists
    with a size above zero. *)
Theorem graph_verdict_ignores_exit_code (plotter_script csv_log
    output_path : string) (days : option Z) (st : State) :
  let command := plotter_command sys_executable plotter_script csv_log
                   output_path days in
  let out := generate_graph subprocess_run sys_executable plotter_script
               csv_log output_path days st in
  (path_exists (world st) plotter_script = false -> out = (false, st))
  /\ (path_exists (world st) plotter_script = true ->
      commands (snd out) = commands st ++ [command]
      /\ world (snd out) = snd (subprocess_run command (world st))
      /\ (fst out = true <->
          (exists p, fst (subprocess_run command (world st)) = Completed p)
          /\ exists_nonempty (snd (subprocess_run command (world st)))
               output_path = true)).
Proof.
  cbv zeta. rewrite generate_graph_eq. split; intros Hp; rewrite Hp; simpl.
  - reflexivity.
  - split; [reflexivity|]. split; [reflexivity|].
    destruct (fst (subprocess_run _ (world st))) as [p| | |].
    + split; [intros H; split; [eauto | exact H] | tauto].
    + split; [discriminate | intros [[p Hp'] _]; discriminate].
    + split; [discriminate | intros [[p Hp'] _]; discriminate].
    + split; [discriminate | intros [[p Hp'] _]; discriminate].
Qed.

(** A graph left on disk by an earlier run counts as generated: when the
    plotter returns, even with a failure exit code, without touching the
    files, [generate_graph] reports success. *)
Theorem stale_graph_counts_as_generated (plotter_script csv_log
    output_path : string) (days : option Z) (st : State) (p : CompletedProcess) :
  path_exists (world st) plotter_script = true ->
  exists_nonempty (world st) output_path = true ->
  subprocess_run
    (plotter_command sys_executable plotter_script csv_log output_path days)
    (world st) = (Completed p, world st) ->
  fst (generate_graph subprocess_run sys_executable plotter_script csv_log
         output_path days st) = true.
Proof.
  intros Hscript Hgraph Hrun. rewrite generate_graph_eq, Hscript. simpl.
  rewrite Hrun. simpl. exact Hgraph.
Qed.

Lemma send_email_eq (vbs subject body attachment : string) (st : State) :
  send_email_notification subprocess_run vbs subject body attachment st
  = if negb (path_exists (world st) attachment) then (false, st)
    else if negb (path_exists (world st) vbs) then (false, st)
    else
      let command := mail_command vbs subject body attachment in
      (match fst (subprocess_run command (world st)) with
       | Completed result =>
           (returncode result =? 0) && contains "SUCCESS" (stdout result)
       | _ => false
       end,
       mkState (snd (subprocess_run command (world st)))
               (commands st ++ [command])).
Proof.
  unfold send_email_notification, mail_command.
  destruct (negb (path_exists (world st) attachment)); [reflexivity|].
  destruct (negb (path_exists (world st) vbs)); [reflexivity|].
  cbv zeta. rewrite run_eq.
  destruct (fst (subprocess_run _ (world st))); reflexivity.
Qed.

(** [send_email_notification] calls the mailer only if the attachment and
    the VBScript are on disk, and then once; it reports success exactly
    when the call returned with exit code 0 and the word SUCCESS on its
    standard output.  A missing file, a time-out or any other exception is
    a failure. *)
Theorem email_success_iff (vbs subject body attachment : string) (st : State) :
  let command := mail_command vbs subject body attachment in
  let out := send_email_notification subprocess_run vbs subject body
               attachment st in
  (path_exists (world st) attachment = false
   \/ path_exists (world st) vbs = false -> out = (false, st))
  /\ (path_exists (world st) attachment = true ->
      path_exists (world st) vbs = true ->
      commands (snd out) = commands st ++ [command])
  /\ (fst out = true <->
      path_exists (world st) attachment = true
      /\ path_exists (world st) vbs = true
      /\ exists p, fst (subprocess_run command (world st)) = Completed p
                   /\ returncode p = 0
                   /\ occurs_in "SUCCESS" (stdout p)).
Proof.
  cbv zeta. rewrite send_email_eq.
  destruct (path_exists (world st) attachment) eqn:Ha; simpl.
  2:{ split; [reflexivity|]. split; [discriminate|].
      split; [discriminate | intros [H _]; discriminate]. }
  destruct (path_exists (world st) vbs) eqn:Hv; simpl.
  2:{ split; [reflexivity|]. split; [discriminate|].
      split; [discriminate | intros [_ [H _]]; discriminate]. }
  split; [intros [H|H]; discriminate|]. split; [reflexivity|].
  destruct (fst (subprocess_run _ (world st))) as [p| | |].
  - rewrite andb_true_iff, Z.eqb_eq, contains_iff. split.
    + intros [H1 H2]. repeat split; auto. exists p. auto.
    + intros [_ [_ [p' [Hp [H1 H2]]]]]. inversion Hp; subst. auto.
  - split; [discriminate | intros [_ [_ [p [Hp _]]]]; discriminate].
  - split; [discriminate | intros [_ [_ [p [Hp _]]]]; discriminate].
  - split; [discriminate | intros [_ [_ [p [Hp _]]]]; discriminate].
Qed.

End HostFacts.

Lemma stale_graph_counts_as_generated_witness :
  fst (generate_graph SampleHost.plotter_crashes "python.exe"
         plotter_script_path csv_log_path graph_output_path (Some 3)
         (SampleHost.start SampleHost.with_old_graph)) = true.
Proof.
  apply (stale_graph_counts_as_generated SampleHost.plotter_crashes "python.exe"
           plotter_script_path csv_log_path graph_output_path (Some 3)
           (SampleHost.start SampleHost.with_old_graph)
           (mkProcess 1 "" "Traceback (most recent call last):")).
  - reflexivity.
  - reflexivity.
  - reflexivity.
Defined.

(** ** [analyze_results] from the path on *)

Lemma file_verdict (now_str : string) (w : World)
    (csv_path : string) :
  let out := analyze_results_file now_str w csv_path in
  (size_of w csv_path = None \/ size_of w csv_path = Some 0%N
   \/ content w csv_path = ReadRaises -> out = (false, now_str))
  /\ (fst out = true ->
      exists n df batch r latest,
        size_of w csv_path = Some n /\ (0 < n)%N
        /\ content w csv_path = Frame df
        /\ latest_results (analyze_results now_str df) = Some batch
        /\ In r batch /\ Success r = false /\ critical r
        /\ column_max (map Timestamp (convert df)) = Some latest
        /\ snd out = strftime latest).
Proof.
  cbv zeta. unfold analyze_results_file, path_exists.
  destruct (size_of w csv_path) as [n|] eqn:Hsize; simpl.
  2:{ split; [reflexivity | discriminate]. }
  destruct (n =? 0)%N eqn:Hn; simpl.
  { split; [reflexivity | discriminate]. }
  apply N.eqb_neq in Hn.
  destruct (content w csv_path) as [df|] eqn:Hload.
  2:{ split; [reflexivity | discriminate]. }
  split.
  - intros [H|[H|H]]; try discriminate. inversion H. lia.
  - simpl. intros Halert.
    pose proof (analyze_results_outcome now_str df) as Ho.
    remember (analyze_results now_str df) as R eqn:HR.
    destruct Ho as [site _ _| |t _ _ Hmax]; simpl in Halert; try discriminate.
    apply alert_iff in Halert. destruct Halert as [r [Hr [Hs Hc]]].
    exists n, df, (rows_at t (convert df)), r, t.
    rewrite <- HR. simpl. repeat split; auto. lia.
Qed.

(** A log that is missing, empty or unreadable gives [(False, now_str)].
    The routine returns [True] only for a log that exists with a size
    above zero and loads as a frame whose rows of the latest timestamp hold
    a failed check that meets the critical criterion; the timestamp
    returned is then that latest timestamp, formatted. *)
Theorem file_alert_needs_critical_failure (now_str : string) (w : World)
    (csv_path : string) :
  let out := analyze_results_file now_str w csv_path in
  (size_of w csv_path = None \/ size_of w csv_path = Some 0%N
   \/ content w csv_path = ReadRaises -> out = (false, now_str))
  /\ (fst out = true ->
      exists n df batch r latest,
        size_of w csv_path = Some n /\ (0 < n)%N
        /\ content w csv_path = Frame df
        /\ latest_results (analyze_results now_str df) = Some batch
        /\ In r batch /\ Success r = false /\ critical r
        /\ column_max (map Timestamp (convert df)) = Some latest
        /\ snd out = strftime latest).
Proof.
  cbv zeta. unfold analyze_results_file, path_exists.
  destruct (size_of w csv_path) as [n|] eqn:Hsize; simpl.
  2:{ split; [reflexivity | discriminate]. }
  destruct (n =? 0)%N eqn:Hn; simpl.
  { split; [reflexivity | discriminate]. }
  apply N.eqb_neq in Hn.
  destruct (content w csv_path) as [df|] eqn:Hload.
  2:{ split; [reflexivity | discriminate]. }
  split.
  - intros [H|[H|H]]; try discriminate. inversion H. lia.
  - simpl. intros Halert.
    pose proof (analyze_results_outcome now_str df) as Ho.
    remember (analyze_results now_str df) as R eqn:HR.
    destruct Ho as [site _ _| |t _ _ Hmax]; simpl in Halert; try discriminate.
    apply alert_iff in Halert. destruct Halert as [r [Hr [Hs Hc]]].
    exists n, df, (rows_at t (convert df)), r, t.
    rewrite <- HR. simpl. repeat split; auto. lia.
Qed.

Lemma file_alert_needs_critical_failure_witness :
  let out := analyze_results_file Sample.now_str SampleHost.with_alarming_log
               csv_log_path in
  exists n df batch r latest,
    size_of SampleHost.with_alarming_log csv_log_path = Some n /\ (0 < n)%N
    /\ content SampleHost.with_alarming_log csv_log_path = Frame df
    /\ latest_results (analyze_results Sample.now_str df) = Some batch
    /\ In r batch /\ Success r = false /\ critical r
    /\ column_max (map Timestamp (convert df)) = Some latest
    /\ snd out = strftime latest.
Proof.
  apply (proj2 (file_alert_needs_critical_failure Sample.now_str
                  SampleHost.with_alarming_log csv_log_path)).
  reflexivity.
Defined.

(** ** The main block *)

Section MainFacts.

Variable subprocess_run : list string -> World -> Ran * World.
Variable sys_executable : string.

Lemma run_powershell_script_eq (script_path : string) (st : State) :
  run_powershell_script subprocess_run script_path st
  = (match fst (subprocess_run (powershell_command script_path) (world st)) with
     | Completed result => powershell_verdict result
     | _ => false
     end,
     mkState (snd (subprocess_run (powershell_command script_path) (world st)))
             (commands st ++ [powershell_command script_path])).
Proof.
  unfold run_powershell_script, powershell_command. rewrite run_eq.
  destruct (fst (subprocess_run _ (world st))); reflexivity.
Qed.

(** With one of the three scripts missing the main block exits with
    status 1 before it runs anything: no call is made and the files are as
    they were. *)
Theorem main_aborts_without_scripts (now_str : string) (st : State) :
  path_exists (world st) ps_script_path = false
  \/ path_exists (world st) plotter_script_path = false
  \/ path_exists (world st) vbs_script_path = false ->
  main subprocess_run sys_executable now_str st
  = (mkReport (Some 1) None None None None, st).
Proof.
  intros H. unfold main, check_file_exists.
  destruct (path_exists (world st) ps_script_path),
           (path_exists (world st) plotter_script_path),
           (path_exists (world st) vbs_script_path); simpl; try reflexivity.
  destruct H as [H|[H|H]]; discriminate.
Qed.

Lemma main_structure (now_str : string) (st : State) :
  path_exists (world st) ps_script_path = true ->
  path_exists (world st) plotter_script_path = true ->
  path_exists (world st) vbs_script_path = true ->
  let out := main subprocess_run sys_executable now_str st in
  let w1 := snd (subprocess_run (powershell_command ps_script_path) (world st)) in
  let plot := plotter_command sys_executable plotter_script_path csv_log_path
                graph_output_path (Some 3) in
  exit_status (fst out) = None
  /\ verdict (fst out) = Some (analyze_results_file now_str w1 csv_log_path)
  /\ (exists plotted mailed,
        commands (snd out)
        = commands st ++ powershell_command ps_script_path :: plotted ++ mailed
        /\ (plotted = [] \/ plotted = [plot])
        /\ (mailed = []
            \/ exists ts,
                 mailed = [mail_command vbs_script_path EMAIL_SUBJECT_FAILURE
                             (EMAIL_BODY_FAILURE ts) graph_output_path]
                 /\ verdict (fst out) = Some (true, ts)
                 /\ graph_generated (fst out) = Some true))
  /\ (email_success (fst out) <> None <->
      (exists ts, verdict (fst out) = Some (true, ts))
      /\ graph_generated (fst out) = Some true).
Proof.
  intros Hps Hplot Hvbs. cbv zeta. unfold main, check_file_exists.
  rewrite Hps, Hplot, Hvbs. simpl negb. cbv iota.
  rewrite run_powershell_script_eq.
  set (w1 := snd (subprocess_run (powershell_command ps_script_path) (world st))).
  set (st1 := mkState w1 (commands st ++ [powershell_command ps_script_path])).
  change (world st1) with w1.
  destruct (analyze_results_file now_str w1 csv_log_path)
    as [alert ts] eqn:Hverdict.
  assert (Hgraph : exists plotted g st2,
             (if path_exists w1 csv_log_path
              then generate_graph subprocess_run sys_executable
                     plotter_script_path csv_log_path graph_output_path
                     (Some 3) st1
              else (false, st1)) = (g, st2)
             /\ commands st2 = commands st1 ++ plotted
             /\ (plotted = []
                 \/ plotted = [plotter_command sys_executable
                                 plotter_script_path csv_log_path
                                 graph_output_path (Some 3)])).
  { destruct (path_exists w1 csv_log_path).
    - rewrite generate_graph_eq.
      destruct (negb (path_exists (world st1) plotter_script_path)).
      + exists [], false, st1. rewrite app_nil_r. auto.
      + cbv zeta. eexists [_], _, _. split; [reflexivity|]. simpl. auto.
    - exists [], false, st1. rewrite app_nil_r. auto. }
  destruct Hgraph as [plotted [g [st2 [-> [Hcmds Hplotted]]]]].
  destruct alert, g.
  - rewrite send_email_eq.
    destruct (negb (path_exists (world st2) graph_output_path)); simpl.
    + split; [reflexivity|]. split; [reflexivity|]. split.
      * exists plotted, []. rewrite app_nil_r, Hcmds. unfold st1. simpl.
        rewrite <- app_assoc. simpl. auto.
      * split; [intros _; eauto | discriminate].
    + destruct (negb (path_exists (world st2) vbs_script_path)); simpl.
      * split; [reflexivity|]. split; [reflexivity|]. split.
        -- exists plotted, []. rewrite app_nil_r, Hcmds. unfold st1. simpl.
           rewrite <- app_assoc. simpl. auto.
        -- split; [intros _; eauto | discriminate].
      * split; [reflexivity|]. split; [reflexivity|]. split.
        -- eexists plotted, [_]. split.
           ++ rewrite Hcmds. unfold st1. simpl.
              rewrite <- !app_assoc. simpl. reflexivity.
           ++ split; [exact Hplotted|]. right. exists ts. auto.
        -- split; [intros _; eauto | discriminate].
  - simpl. split; [reflexivity|]. split; [reflexivity|]. split.
    + exists plotted, []. rewrite app_nil_r, Hcmds. unfold st1. simpl.
      rewrite <- app_assoc. simpl. auto.
    + split; [congruence | intros [_ H]; discriminate].
  - simpl. split; [reflexivity|]. split; [reflexivity|]. split.
    + exists plotted, []. rewrite app_nil_r, Hcmds. unfold st1. simpl.
      rewrite <- app_assoc. simpl. auto.
    + split; [congruence | intros [[ts' H] _]; discriminate].
  - simpl. split; [reflexivity|]. split; [reflexivity|]. split.
    + exists plotted, []. rewrite app_nil_r, Hcmds. unfold st1. simpl.
      rewrite <- app_assoc. simpl. auto.
    + split; [congruence | intros [[ts' H] _]; discriminate].
Qed.

(** With the three scripts in place the main block runs PowerShell first
    and goes on whatever that run reports: the verdict is the one of
    [analyze_results] on the log as PowerShell left it.  Then come at most
    one call of the plotter, for the last 3 days, and at most one call of
    the mailer.  The mailer is called only if the verdict is an alert and
    the graph was generated, with the fixed subject, the graph as
    attachment and a body that carries the timestamp of the verdict; and
    [send_email_notification] is entered exactly in that case. *)
Theorem main_runs_in_order (now_str : string) (st : State) :
  path_exists (world st) ps_script_path = true ->
  path_exists (world st) plotter_script_path = true ->
  path_exists (world st) vbs_script_path = true ->
  let out := main subprocess_run sys_executable now_str st in
  let w1 := snd (subprocess_run (powershell_command ps_script_path) (world st)) in
  let plot := plotter_command sys_executable plotter_script_path csv_log_path
                graph_output_path (Some 3) in
  exit_status (fst out) = None
  /\ verdict (fst out) = Some (analyze_results_file now_str w1 csv_log_path)
  /\ (exists plotted mailed,
        commands (snd out)
        = commands st ++ powershell_command ps_script_path :: plotted ++ mailed
        /\ (plotted = [] \/ plotted = [plot])
        /\ (mailed = []
            \/ exists ts,
                 mailed = [mail_command vbs_script_path EMAIL_SUBJECT_FAILURE
                             (EMAIL_BODY_FAILURE ts) graph_output_path]
                 /\ verdict (fst out) = Some (true, ts)
                 /\ graph_generated (fst out) = Some true))
  /\ (email_success (fst out) <> None <->
      (exists ts, verdict (fst out) = Some (true, ts))
      /\ graph_generated (fst out) = Some true).
Proof.
  intros Hps Hplot Hvbs. cbv zeta. unfold main, check_file_exists.
  rewrite Hps, Hplot, Hvbs. simpl negb. cbv iota.
  rewrite run_powershell_script_eq.
  set (w1 := snd (subprocess_run (powershell_command ps_script_path) (world st))).
  set (st1 := mkState w1 (commands st ++ [powershell_command ps_script_path])).
  change (world st1) with w1.
  destruct (analyze_results_file now_str w1 csv_log_path)
    as [alert ts] eqn:Hverdict.
  assert (Hgraph : exists plotted g st2,
             (if path_exists w1 csv_log_path
              then generate_graph subprocess_run sys_executable
                     plotter_script_path csv_log_path graph_output_path
                     (Some 3) st1
              else (false, st1)) = (g, st2)
             /\ commands st2 = commands st1 ++ plotted
             /\ (plotted = []
                 \/ plotted = [plotter_command sys_executable
                                 plotter_script_path csv_log_path
                                 graph_output_path (Some 3)])).
  { destruct (path_exists w1 csv_log_path).
    - rewrite generate_graph_eq.
      destruct (negb (path_exists (world st1) plotter_script_path)).
      + exists [], false, st1. rewrite app_nil_r. auto.
      + cbv zeta. eexists [_], _, _. split; [reflexivity|]. simpl. auto.
    - exists [], false, st1. rewrite app_nil_r. auto. }
  destruct Hgraph as [plotted [g [st2 [-> [Hcmds Hplotted]]]]].
  destruct alert, g.
  - rewrite send_email_eq.
    destruct (negb (path_exists (world st2) graph_output_path)); simpl.
    + split; [reflexivity|]. split; [reflexivity|]. split.
      * exists plotted, []. rewrite app_nil_r, Hcmds. unfold st1. simpl.
        rewrite <- app_assoc. simpl. auto.
      * split; [intros _; eauto | discriminate].
    + destruct (negb (path_exists (world st2) vbs_script_path)); simpl.
      * split; [reflexivity|]. split; [reflexivity|]. split.
        -- exists plotted, []. rewrite app_nil_r, Hcmds. unfold st1. simpl.
           rewrite <- app_assoc. simpl. auto.
        -- split; [intros _; eauto | discriminate].
      * split; [reflexivity|]. split; [reflexivity|]. split.
        -- eexists plotted, [_]. split.
           ++ rewrite Hcmds. unfold st1. simpl.
              rewrite <- !app_assoc. simpl. reflexivity.
           ++ split; [exact Hplotted|]. right. exists ts. auto.
        -- split; [intros _; eauto | discriminate].
  - simpl. split; [reflexivity|]. split; [reflexivity|]. split.
    + exists plotted, []. rewrite app_nil_r, Hcmds. unfold st1. simpl.
      rewrite <- app_assoc. simpl. auto.
    + split; [congruence | intros [_ H]; discriminate].
  - simpl. split; [reflexivity|]. split; [reflexivity|]. split.
    + exists plotted, []. rewrite app_nil_r, Hcmds. unfold st1. simpl.
      rewrite <- app_assoc. simpl. auto.
    + split; [congruence | intros [[ts' H] _]; discriminate].
  - simpl. split; [reflexivity|]. split; [reflexivity|]. split.
    + exists plotted, []. rewrite app_nil_r, Hcmds. unfold st1. simpl.
      rewrite <- app_assoc. simpl. auto.
    + split; [congruence | intros [[ts' H] _]; discriminate].
Qed.

End MainFacts.

Lemma main_aborts_without_scripts_witness :
  main SampleHost.healthy "python.exe" Sample.now_str
    (SampleHost.start SampleHost.nothing)
  = (mkReport (Some 1) None None None None, SampleHost.start SampleHost.nothing).
Proof.
  apply (main_aborts_without_scripts SampleHost.healthy "python.exe"
           Sample.now_str (SampleHost.start SampleHost.nothing)).
  left. reflexivity.
Defined.

Lemma main_runs_in_order_witness :
  let st := SampleHost.start SampleHost.with_alarming_log in
  let out := main SampleHost.healthy "python.exe" Sample.now_str st in
  let w1 := snd (SampleHost.healthy (powershell_command ps_script_path)
                   (world st)) in
  let plot := plotter_command "python.exe" plotter_script_path csv_log_path
                graph_output_path (Some 3) in
  exit_status (fst out) = None
  /\ verdict (fst out)
     = Some (analyze_results_file Sample.now_str w1 csv_log_path)
  /\ (exists plotted mailed,
        commands (snd out)
        = commands st ++ powershell_command ps_script_path :: plotted ++ mailed
        /\ (plotted = [] \/ plotted = [plot])
        /\ (mailed = []
            \/ exists ts,
                 mailed = [mail_command vbs_script_path EMAIL_SUBJECT_FAILURE
                             (EMAIL_BODY_FAILURE ts) graph_output_path]
                 /\ verdict (fst out) = Some (true, ts)
                 /\ graph_generated (fst out) = Some true))
  /\ (email_success (fst out) <> None <->
      (exists ts, verdict (fst out) = Some (true, ts))
      /\ graph_generated (fst out) = Some true).
Proof.
  apply (main_runs_in_order SampleHost.healthy "python.exe" Sample.now_str
           (SampleHost.start SampleHost.with_alarming_log)).
  - reflexivity.
  - reflexivity.
  - reflexivity.
Defined.

(** On the healthy host with the two listeners down in the log, the main
    block makes its three calls and the mail goes out with the timestamp
    of the latest run. *)
Example alarming_log_is_mailed :
  let out := main SampleHost.healthy "python.exe" Sample.now_str
               (SampleHost.start SampleHost.with_alarming_log) in
  fst out = mkReport None (Some true) (Some (true, "2023-11-14 22:13:20"))
              (Some true) (Some true)
  /\ commands (snd out)
     = [powershell_command ps_script_path;
        plotter_command "python.exe" plotter_script_path csv_log_path
          graph_output_path (Some 3);
        mail_command vbs_script_path EMAIL_SUBJECT_FAILURE
          (EMAIL_BODY_FAILURE "2023-11-14 22:13:20") graph_output_path].
Proof. cbv zeta. split; reflexivity. Qed.

(** From the log to the mail: with the three scripts in place, the main
    block enters [send_email_notification] only if the log, as the
    PowerShell run left it, exists with a size above zero and loads as a
    frame whose rows of the latest timestamp hold a failed check that
    meets the critical criterion; the timestamp of the verdict, which the
    body of the mail carries, is that latest timestamp, formatted. *)
Theorem mail_only_for_critical_failure
    (subprocess_run : list string -> World -> Ran * World)
    (sys_executable now_str : string) (st : State) :
  path_exists (world st) ps_script_path = true ->
  path_exists (world st) plotter_script_path = true ->
  path_exists (world st) vbs_script_path = true ->
  let out := main subprocess_run sys_executable now_str st in
  let w1 := snd (subprocess_run (powershell_command ps_script_path) (world st)) in
  email_success (fst out) <> None ->
  exists n df batch r latest,
    size_of w1 csv_log_path = Some n /\ (0 < n)%N
    /\ content w1 csv_log_path = Frame df
    /\ latest_results (analyze_results now_str df) = Some batch
    /\ In r batch /\ Success r = false /\ critical r
    /\ column_max (map Timestamp (convert df)) = Some latest
    /\ verdict (fst out) = Some (true, strftime latest)
    /\ graph_generated (fst out) = Some true.
Proof.
  intros Hps Hplot Hvbs. cbv zeta. intros Hmail.
  destruct (main_structure subprocess_run sys_executable now_str st
              Hps Hplot Hvbs) as [_ [Hverdict [_ Hiff]]].
  apply Hiff in Hmail. destruct Hmail as [[ts Hts] Hgraph].
  rewrite Hverdict in Hts. inversion Hts as [Hpair].
  destruct (file_verdict now_str
              (snd (subprocess_run (powershell_command ps_script_path) (world st)))
              csv_log_path) as [_ Hfile].
  rewrite Hpair in Hfile. specialize (Hfile eq_refl).
  destruct Hfile as [n [df [batch [r [latest H]]]]].
  exists n, df, batch, r, latest.
  destruct H as [H1 [H2 [H3 [H4 [H5 [H6 [H7 [H8 H9]]]]]]]].
  simpl in H9. subst ts. rewrite Hverdict, Hpair. repeat split; assumption.
Qed.

Lemma mail_only_for_critical_failure_witness :
  let st := SampleHost.start SampleHost.with_alarming_log in
  let out := main SampleHost.healthy "python.exe" Sample.now_str st in
  let w1 := snd (SampleHost.healthy (powershell_command ps_script_path)
                   (world st)) in
  exists n df batch r latest,
    size_of w1 csv_log_path = Some n /\ (0 < n)%N
    /\ content w1 csv_log_path = Frame df
    /\ latest_results (analyze_results Sample.now_str df) = Some batch
    /\ In r batch /\ Success r = false /\ critical r
    /\ column_max (map Timestamp (convert df)) = Some latest
    /\ verdict (fst out) = Some (true, strftime latest)
    /\ graph_generated (fst out) = Some true.
Proof.
  apply (mail_only_for_critical_failure SampleHost.healthy "python.exe"
           Sample.now_str (SampleHost.start SampleHost.with_alarming_log)).
  - reflexivity.
  - reflexivity.
  - reflexivity.
  - discriminate.
Defined.

(** PowerShell's report is not a gate: two hosts that differ only in what
    the PowerShell call answers, and not in what it does to the files,
    lead the main block to the same verdict, graph, mail and calls. *)
Theorem powershell_status_is_no_gate
    (subprocess_run subprocess_run' : list string -> World -> Ran * World)
    (sys_executable now_str : string) (st : State) :
  (forall w, snd (subprocess_run (powershell_command ps_script_path) w)
             = snd (subprocess_run' (powershell_command ps_script_path) w)) ->
  (forall command w, command <> powershell_command ps_script_path ->
                     subprocess_run command w = subprocess_run' command w) ->
  let out := main subprocess_run sys_executable now_str st in
  let out' := main subprocess_run' sys_executable now_str st in
  exit_status (fst out) = exit_status (fst out')
  /\ verdict (fst out) = verdict (fst out')
  /\ graph_generated (fst out) = graph_generated (fst out')
  /\ email_success (fst out) = email_success (fst out')
  /\ snd out = snd out'.
Proof.
  intros Hfiles Hrest. cbv zeta. unfold main.
  destruct (if negb (check_file_exists (world st) vbs_script_path) then true
            else if negb (check_file_exists (world st) plotter_script_path)
                 then true
                 else if negb (check_file_exists (world st) ps_script_path)
                      then true else false) eqn:Habort.
  { simpl. repeat split; reflexivity. }
  rewrite !run_powershell_script_eq, <- Hfiles.
  set (st1 := mkState _ _).
  assert (Hplot : forall plotter csv out days s,
            generate_graph subprocess_run' sys_executable plotter csv out
              (Some days) s
            = generate_graph subprocess_run sys_executable plotter csv out
                (Some days) s).
  { intros. rewrite !generate_graph_eq. cbv zeta. rewrite Hrest; [reflexivity|].
    unfold plotter_command, powershell_command. simpl. discriminate. }
  assert (Hmail : forall vbs subject body att s,
            send_email_notification subprocess_run' vbs subject body att s
            = send_email_notification subprocess_run vbs subject body att s).
  { intros. rewrite !send_email_eq. cbv zeta. rewrite Hrest; [reflexivity|].
    unfold mail_command, powershell_command. discriminate. }
  rewrite Hplot.
  destruct (analyze_results_file now_str (world st1) csv_log_path) as [alert ts].
  destruct (if path_exists (world st1) csv_log_path
            then generate_graph subprocess_run sys_executable
                   plotter_script_path csv_log_path graph_output_path
                   (Some 3) st1
            else (false, st1)) as [g st2].
  destruct alert, g; try (simpl; repeat split; reflexivity).
  rewrite Hmail.
  destruct (send_email_notification subprocess_run vbs_script_path
              EMAIL_SUBJECT_FAILURE (EMAIL_BODY_FAILURE ts) graph_output_path
              st2).
  simpl. repeat split; reflexivity.
Qed.

Lemma powershell_status_is_no_gate_witness :
  let st := SampleHost.start SampleHost.with_alarming_log in
  let out := main SampleHost.healthy "python.exe" Sample.now_str st in
  let out' := main SampleHost.log_locked "python.exe" Sample.now_str st in
  exit_status (fst out) = exit_status (fst out')
  /\ verdict (fst out) = verdict (fst out')
  /\ graph_generated (fst out) = graph_generated (fst out')
  /\ email_success (fst out) = email_success (fst out')
  /\ snd out = snd out'.
Proof.
  apply (powershell_status_is_no_gate SampleHost.healthy SampleHost.log_locked
           "python.exe" Sample.now_str
           (SampleHost.start SampleHost.with_alarming_log)).
  - intros w. reflexivity.
  - intros command w Hother. unfold SampleHost.log_locked.
    destruct (list_eq_dec string_dec command
                (powershell_command ps_script_path)) as [E|E];
      [contradiction | reflexivity].
Defined.

(** * Properties of the plotter *)

Lemma NDP_outbound_In (df : list NDP.Row) (r : NDP.Row) :
  In r (NDP.outbound_checks df) <->
  In r df /\ (NDP.CheckType r = Some "Outbound TCP"
              \/ NDP.CheckType r = Some "Outbound ICMP").
Proof.
  unfold NDP.outbound_checks. rewrite filter_In. unfold isin.
  destruct (NDP.CheckType r) as [x|]; simpl.
  - rewrite !orb_true_iff, !String.eqb_eq. split.
    + intros [H [E|[E|E]]]; try discriminate; subst; auto.
    + intros [H [E|E]]; inversion E; auto.
  - split; [intros [_ H]; discriminate | intros [_ [H|H]]; discriminate].
Qed.

Lemma NDP_inbound_In (df : list NDP.Row) (r : NDP.Row) :
  In r (NDP.inbound_checks df) <->
  In r df /\ NDP.CheckType r = Some "Inbound Listen Check".
Proof. unfold NDP.inbound_checks. rewrite filter_In, eq_text_iff. tauto. Qed.

Lemma NDP_ping_In (df : list NDP.Row) (r : NDP.Row) :
  In r (NDP.ping_speed_checks df) <->
  In r df /\ NDP.CheckType r = Some "Outbound ICMP" /\ NDP.Success r = true
  /\ NDP.ResponseTimeMs r <> None.
Proof.
  unfold NDP.ping_speed_checks.
  rewrite filter_In, !andb_true_iff, eq_text_iff.
  destruct (NDP.Success r), (NDP.ResponseTimeMs r); simpl;
    intuition congruence.
Qed.

(** The three frames of the plotter: every ping-speed point is an outbound
    check, no row is both an outbound and an inbound check, and a row
    whose check type is none of the three known ones is in no frame.  So
    the plotter takes its no-data branch exactly when no row of the frame
    is an outbound or inbound check: the third test of line 83 adds
    nothing. *)
Theorem plotter_frames (df : list NDP.Row) :
  (forall r, In r (NDP.ping_speed_checks df) -> In r (NDP.outbound_checks df))
  /\ (forall r, In r (NDP.outbound_checks df) -> ~ In r (NDP.inbound_checks df))
  /\ (forall r, In r df ->
        NDP.CheckType r <> Some "Outbound TCP" ->
        NDP.CheckType r <> Some "Outbound ICMP" ->
        NDP.CheckType r <> Some "Inbound Listen Check" ->
        ~ In r (NDP.outbound_checks df) /\ ~ In r (NDP.inbound_checks df)
        /\ ~ In r (NDP.ping_speed_checks df))
  /\ (NDP.no_data df = true <->
      NDP.outbound_checks df = [] /\ NDP.inbound_checks df = [])
  /\ (NDP.no_data df = true <->
      forall r, In r df ->
        NDP.CheckType r <> Some "Outbound TCP"
        /\ NDP.CheckType r <> Some "Outbound ICMP"
        /\ NDP.CheckType r <> Some "Inbound Listen Check").
Proof.
  assert (Hsub : forall r, In r (NDP.ping_speed_checks df) ->
                           In r (NDP.outbound_checks df)).
  { intros r Hr. apply NDP_ping_In in Hr. apply NDP_outbound_In. tauto. }
  assert (Hnodata : NDP.no_data df = true <->
                    NDP.outbound_checks df = [] /\ NDP.inbound_checks df = []).
  { unfold NDP.no_data. rewrite !andb_true_iff, !empty_true_iff. split.
    - tauto.
    - intros [Ho Hi]. repeat split; auto.
      destruct (NDP.ping_speed_checks df) as [|r l] eqn:E; [reflexivity|].
      specialize (Hsub r (or_introl eq_refl)). rewrite Ho in Hsub.
      contradiction. }
  split; [exact Hsub|]. split.
  { intros r Ho Hi. apply NDP_outbound_In in Ho. apply NDP_inbound_In in Hi.
    destruct Ho as [_ [E|E]], Hi as [_ E']; congruence. }
  split.
  { intros r Hin H1 H2 H3. repeat split; intros H.
    - apply NDP_outbound_In in H. tauto.
    - apply NDP_inbound_In in H. tauto.
    - apply NDP_ping_In in H. tauto. }
  split; [exact Hnodata|].
  rewrite Hnodata. split.
  - intros [Ho Hi] r Hin. repeat split; intros E.
    + assert (H : In r (NDP.outbound_checks df))
        by (apply NDP_outbound_In; auto).
      rewrite Ho in H. contradiction.
    + assert (H : In r (NDP.outbound_checks df))
        by (apply NDP_outbound_In; auto).
      rewrite Ho in H. contradiction.
    + assert (H : In r (NDP.inbound_checks df))
        by (apply NDP_inbound_In; auto).
      rewrite Hi in H. contradiction.
  - intros Hall. split.
    + destruct (NDP.outbound_checks df) as [|r l] eqn:E; [reflexivity|].
      assert (H : In r (NDP.outbound_checks df)) by (rewrite E; now left).
      apply NDP_outbound_In in H. destruct H as [Hin H].
      destruct (Hall r Hin) as [H1 [H2 _]]. tauto.
    + destruct (NDP.inbound_checks df) as [|r l] eqn:E; [reflexivity|].
      assert (H : In r (NDP.inbound_checks df)) by (rewrite E; now left).
      apply NDP_inbound_In in H. destruct H as [Hin H].
      destruct (Hall r Hin) as [_ [_ H3]]. tauto.
Qed.

(** The window of days.  With a positive number of days whose cut-off, now
    minus that many days, lies in the range of the timestamps of a frame,
    the plotter keeps exactly the rows stamped at or after the cut-off,
    and drops the rows without timestamp.  With no number, or one that is
    not positive, it keeps every row, those without timestamp included.
    With more days than separate now from [datetime.min], line 57 raises
    and nothing handles it. *)
Theorem plotter_window (now : datetime) (days : option Z) (df : list NDP.Row) :
  (forall d, days = Some d -> 0 < d -> NDP.Timestamp_min <= now - d * NDP.day ->
     exists kept, NDP.window now days df = inr kept
       /\ (forall r, In r kept <->
             In r df /\ exists t, NDP.Timestamp r = Some t
                                  /\ now - d * NDP.day <= t))
  /\ (days = None \/ (exists d, days = Some d /\ d <= 0) ->
      NDP.window now days df = inr df)
  /\ (forall d, days = Some d -> 0 < d -> now - d * NDP.day < NDP.datetime_min ->
      exists e, NDP.window now days df = inl e).
Proof.
  split; [|split].
  - intros d -> Hpos Hrange. unfold NDP.window, NDP.cutoff_date.
    assert (Hmin : NDP.datetime_min <= NDP.Timestamp_min)
      by (vm_compute; discriminate).
    destruct (0 <? d) eqn:E; [|apply Z.ltb_ge in E; lia].
    destruct (now - d * NDP.day <? NDP.datetime_min) eqn:E';
      [apply Z.ltb_lt in E'; lia|].
    simpl. eexists. split; [reflexivity|]. intros r. rewrite filter_In.
    unfold NDP.ge_datetime. destruct (NDP.Timestamp r) as [t|].
    + rewrite Z.leb_le. split.
      * intros [H1 H2]. split; [exact H1|]. exists t. auto.
      * intros [H1 [t' [Ht' H2]]]. inversion Ht'; subst. auto.
    + split; [intros [_ H]; discriminate|].
      intros [_ [t [Ht _]]]. discriminate.
  - intros [->|[d [-> Hd]]]; simpl; [reflexivity|].
    destruct (0 <? d) eqn:E; [apply Z.ltb_lt in E; lia | reflexivity].
  - intros d -> Hpos Hrange. unfold NDP.window, NDP.cutoff_date.
    destruct (0 <? d) eqn:E; [|apply Z.ltb_ge in E; lia].
    destruct (now - d * NDP.day <? NDP.datetime_min) eqn:E';
      [|apply Z.ltb_ge in E'; lia].
    simpl. eauto.
Qed.

Lemma plotter_window_witness :
  (exists kept,
     NDP.window NDP.sample_now (Some 3)
       [NDP.ping_ok; NDP.undated; NDP.service_check] = inr kept
     /\ (forall r, In r kept <->
           In r [NDP.ping_ok; NDP.undated; NDP.service_check]
           /\ exists t, NDP.Timestamp r = Some t
                        /\ NDP.sample_now - 3 * NDP.day <= t))
  /\ NDP.window NDP.sample_now None [NDP.ping_ok; NDP.undated]
     = inr [NDP.ping_ok; NDP.undated]
  /\ exists e, NDP.window NDP.sample_now (Some 800000) [NDP.ping_ok] = inl e.
Proof.
  split; [|split].
  - apply (proj1 (plotter_window NDP.sample_now (Some 3)
                    [NDP.ping_ok; NDP.undated; NDP.service_check]) 3).
    + reflexivity.
    + reflexivity.
    + vm_compute. discriminate.
  - apply (proj1 (proj2 (plotter_window NDP.sample_now None
                           [NDP.ping_ok; NDP.undated]))).
    left. reflexivity.
  - apply (proj2 (proj2 (plotter_window NDP.sample_now (Some 800000)
                           [NDP.ping_ok])) 800000).
    + reflexivity.
    + reflexivity.
    + reflexivity.
Defined.
